(** * qutebrowser.misc.editor: launcher for an external editor

    A shallow embedding of [src/qutebrowser/misc/editor.py] (class
    [ExternalEditor]) and the properties of its caret arithmetic, its
    placeholder substitution and its temporary-file life cycle.

    Python [str] values are modelled as [string] (characters are 8-bit
    [ascii] code points), Python [int] as [Z], the file system as a finite
    map from paths to file contents, and the effects of the class (messages
    to the user, the [editing_finished] signal, system calls, the process
    start) as an ordered trace.  Methods are functions in a state and
    exception monad; an [assert] is executed.  The calls to [log.procs.debug]
    have no effect that the class can observe and are left out, and the
    connections of the signals of the process are the function [deliver]. *)

From Stdlib Require Import ZArith Ascii String List Lia Bool DecimalString.
From stdpp Require Import gmap strings.

Open Scope string_scope.
Open Scope list_scope.
Open Scope Z_scope.

#[local] Arguments String.append !_ _ / : simpl nomatch.
#[local] Arguments String.length : simpl nomatch.
#[local] Arguments Ascii.eqb : simpl never.

(** ** Python string built-ins used by the module *)

Module Py.

(** The characters the module distinguishes. *)
Definition LF : ascii := "010"%char.
Definition CR : ascii := "013"%char.
Definition newline : string := String LF "".
Definition crlf : string := String CR newline.

(** [len(s)] *)
Definition len (s : string) : Z := Z.of_nat (String.length s).

(** The first [n] characters of [s]. *)
Fixpoint take (n : nat) (s : string) : string :=
  match n, s with
  | S k, String c s' => String c (take k s')
  | _, _ => ""
  end.

(** [s[:stop]]: a negative [stop] counts from the end, and both ends are
    clamped to the string. *)
Definition slice_to (s : string) (stop : Z) : string :=
  let stop' := if stop <? 0 then Z.max (len s + stop) 0
               else Z.min stop (len s) in
  take (Z.to_nat stop') s.

(** [s.startswith(p)] *)
Fixpoint startswith (p s : string) : bool :=
  match p, s with
  | "", _ => true
  | String a p', String b s' => Ascii.eqb a b && startswith p' s'
  | String _ _, "" => false
  end.

(** [s.count(sub)]: the number of non-overlapping occurrences of [sub],
    scanning from the left; [skip] characters of a match just counted are
    passed over. *)
Fixpoint count_from (sub : string) (skip : nat) (s : string) : nat :=
  match s with
  | "" => O
  | String _ s' =>
      match skip with
      | S k => count_from sub k s'
      | O => if startswith sub s
             then S (count_from sub (String.length sub - 1) s')
             else count_from sub 0 s'
      end
  end.

Definition count (s sub : string) : Z :=
  match sub with
  | "" => len s + 1
  | _ => Z.of_nat (count_from sub 0 s)
  end.

(** [s.rfind(sub)]: the highest index at which [sub] occurs, [-1] when it
    does not occur.  [i] is the index of the head of [s] and [last] the
    highest match seen so far. *)
Fixpoint rfind_from (sub : string) (i last : Z) (s : string) : Z :=
  let last' := if startswith sub s then i else last in
  match s with
  | "" => last'
  | String _ s' => rfind_from sub (i + 1) last' s'
  end.

Definition rfind (s sub : string) : Z := rfind_from sub 0 (-1) s.

(** [s.replace(old, new)]: every non-overlapping occurrence of [old],
    scanning from the left, is replaced by [new]. *)
Fixpoint replace_from (old new : string) (skip : nat) (s : string) : string :=
  match s with
  | "" => ""
  | String c s' =>
      match skip with
      | S k => replace_from old new k s'
      | O => if startswith old s
             then new +:+ replace_from old new (String.length old - 1) s'
             else String c (replace_from old new 0 s')
      end
  end.

(** With an empty [old], Python inserts [new] before every character and
    at the end. *)
Fixpoint interleave (new s : string) : string :=
  match s with
  | "" => new
  | String c s' => new +:+ String c (interleave new s')
  end.

Definition replace (s old new : string) : string :=
  match old with
  | "" => interleave new s
  | _ => replace_from old new 0 s
  end.

(** [sub in s] *)
Fixpoint contains (s sub : string) : bool :=
  startswith sub s ||
  match s with
  | "" => false
  | String _ s' => contains s' sub
  end.

(** [str(n)] for an [int]: decimal digits with a leading minus sign for
    negative numbers. *)
Definition str (n : Z) : string := NilZero.string_of_int (Z.to_int n).

End Py.

(** ** The class [ExternalEditor] *)

Module Editor.

(** [QProcess.ExitStatus] and [QProcess.ProcessError]. *)
Inductive ExitStatus := NormalExit | CrashExit.
Inductive ProcessError :=
  FailedToStart | Crashed | Timedout | ReadError | WriteError | UnknownError.

Definition ExitStatus_eqb (a b : ExitStatus) : bool :=
  match a, b with
  | NormalExit, NormalExit | CrashExit, CrashExit => true
  | _, _ => false
  end.

(** An [OSError] as the operating system reports it; [os_error_str] is
    its [str()]. *)
Inductive os_error :=
| FileNotFoundError (path : string)
| FileExistsError
| OtherOSError (strerror : string).

Definition os_error_str (e : os_error) : string :=
  match e with
  | FileNotFoundError p => "[Errno 2] No such file or directory: '" +:+ p +:+ "'"
  | FileExistsError => "[Errno 17] No usable temporary file name found"
  | OtherOSError m => m
  end.

(** The exceptions the methods can raise or catch. *)
Inductive exn :=
| ValueError (msg : string)
| AssertionError
| AttributeError
| TypeError
| IndexError
| UnicodeEncodeError
| UnicodeDecodeError
| OSError (e : os_error).

(** A text codec ([config.val.editor.encoding]): encoding and decoding
    fail with a [UnicodeError] on what the codec cannot represent. *)
Record Codec := {
  encode : string -> option string;
  decode : string -> option string
}.

(** What the module reads from its collaborators: the configured editor
    command and encoding, and [os.linesep] of the platform. *)
Record Config := {
  editor_command : list string;
  editor_encoding : Codec;
  linesep : string
}.

(** The [GUIProcess] held in [_proc].  Its exit status is the one of the
    underlying [QProcess]: [NormalExit] until the process crashes. *)
Record GUIProcess := {
  what : string;
  exit_status : ExitStatus
}.

(** The attributes of an [ExternalEditor]; [None] is Python's [None]. *)
Record ExternalEditor := {
  _filename : option string;
  _proc : option GUIProcess;
  _remove_file : option bool
}.

(** Everything a method does besides changing its attributes and the
    file system, in the order it happens.  System calls are recorded when
    they are attempted. *)
Inductive Effect :=
| sys_mkstemp (name : string)
| sys_write (name : string)
| sys_open (name : string)
| sys_remove (name : string)
| message_error (msg : string)
| editing_finished (text : string)
| proc_start (executable : string) (args : list string).

Record State := {
  self : ExternalEditor;
  fs : gmap string string;
  trace : list Effect
}.

(** What the operating system answers when [edit] asks for a temporary
    file: the directory and the random part of the name, the size of the
    buffer of the file ([st_blksize]), and the errors, if any, of creating
    the file, of the write that [fobj.write] makes when the text does not
    fit the buffers, and of the write that is made when the file is closed
    at the end of the [with] block; [tmp_written] is the number of bytes
    that have reached the file when such a write fails. *)
Record TempFile := {
  tmp_dir : string;
  tmp_random : string;
  tmp_buffer_size : nat;
  tmp_create : option os_error;
  tmp_write : option os_error;
  tmp_close : option os_error;
  tmp_written : nat
}.

(** The text file object of the [with] block: its name and the encoded
    text that it holds back until it is closed. *)
Record TextFile := {
  fobj_name : string;
  fobj_pending : option string
}.

(** ** Statements: state and exceptions *)

Inductive Res (A : Type) :=
| Ok (a : A)
| Raise (e : exn).
Arguments Ok {A} a.
Arguments Raise {A} e.

Definition M (A : Type) : Type := State -> Res A * State.

Definition ret {A} (a : A) : M A := fun st => (Ok a, st).
Definition raise {A} (e : exn) : M A := fun st => (Raise e, st).
Definition bind {A B} (m : M A) (k : A -> M B) : M B :=
  fun st => match m st with
            | (Ok a, st') => k a st'
            | (Raise e, st') => (Raise e, st')
            end.

Notation "x <- m ;; k" := (bind m (fun x => k))
  (at level 63, m at next level, right associativity).
Notation "m ;;; k" := (bind m (fun _ => k))
  (at level 63, right associativity).

(** [try: body except OSError as e: handler(e)] *)
Definition try_except_OSError {A} (body : M A) (handler : os_error -> M A) : M A :=
  fun st => match body st with
            | (Raise (OSError e), st') => handler e st'
            | r => r
            end.

(** [try: body finally: final]; an exception of [final] replaces the
    outcome of [body]. *)
Definition try_finally {A} (body : M A) (final : M unit) : M A :=
  fun st => match body st with
            | (r, st') => match final st' with
                          | (Ok _, st'') => (r, st'')
                          | (Raise e, st'') => (Raise e, st'')
                          end
            end.

Fixpoint mapM {A B} (f : A -> M B) (l : list A) : M (list B) :=
  match l with
  | [] => ret []
  | a :: l' => b <- f a ;; bs <- mapM f l' ;; ret (b :: bs)
  end.

Definition get_self : M ExternalEditor := fun st => (Ok (self st), st).
Definition set_self (s : ExternalEditor) : M unit :=
  fun st => (Ok tt, {| self := s; fs := fs st; trace := trace st |}).
Definition get_fs : M (gmap string string) := fun st => (Ok (fs st), st).
Definition set_fs (m : gmap string string) : M unit :=
  fun st => (Ok tt, {| self := self st; fs := m; trace := trace st |}).
(** The state after the effects [t] have happened. *)
Definition record (t : list Effect) (st : State) : State :=
  {| self := self st; fs := fs st; trace := trace st ++ t |}.

Definition effect (e : Effect) : M unit := fun st => (Ok tt, record [e] st).

Definition set_filename (f : option string) : M unit :=
  s <- get_self ;;
  set_self {| _filename := f; _proc := _proc s; _remove_file := _remove_file s |}.
Definition set_proc (p : option GUIProcess) : M unit :=
  s <- get_self ;;
  set_self {| _filename := _filename s; _proc := p; _remove_file := _remove_file s |}.
Definition set_remove_file (b : option bool) : M unit :=
  s <- get_self ;;
  set_self {| _filename := _filename s; _proc := _proc s; _remove_file := b |}.

(** [ExternalEditor.__init__] *)
Definition __init__ : ExternalEditor :=
  {| _filename := None; _proc := None; _remove_file := None |}.

(** ** Text files *)

(** Writing in text mode with [newline=None]: ['\n'] becomes
    [os.linesep] unless that is ['\n'] already. *)
Definition translate_write (linesep s : string) : string :=
  if String.eqb linesep Py.newline then s else Py.replace s Py.newline linesep.

(** Reading in text mode with [newline=None] (universal newlines):
    ['\r\n'] and ['\r'] are returned as ['\n'].  [after_cr] says that the
    previous character was a ['\r']. *)
Fixpoint universal_newlines (after_cr : bool) (s : string) : string :=
  match s with
  | "" => ""
  | String c s' =>
      if Ascii.eqb c Py.CR then String Py.LF (universal_newlines true s')
      else if Ascii.eqb c Py.LF then
        if after_cr then universal_newlines false s'
        else String Py.LF (universal_newlines false s')
      else String c (universal_newlines false s')
  end.

Definition tmp_name (tmp : TempFile) : string :=
  tmp_dir tmp +:+ "/" +:+ "qutebrowser-editor-" +:+ tmp_random tmp.

Section WithConfig.

Variable config : Config.

(** [tempfile.NamedTemporaryFile(mode='w', prefix='qutebrowser-editor-',
    encoding=..., delete=False)]: creates a new, empty file whose name
    is not in use.  [tmp_random tmp] is the last name that is tried; when
    that one is in use as well the call fails as Python does when it runs
    out of names. *)
Definition NamedTemporaryFile (tmp : TempFile) : M TextFile :=
  effect (sys_mkstemp (tmp_name tmp)) ;;;
  match tmp_create tmp with
  | Some e => raise (OSError e)
  | None =>
      files <- get_fs ;;
      match files !! tmp_name tmp with
      | Some _ => raise (OSError FileExistsError)
      | None =>
          set_fs (<[tmp_name tmp := ""]> files) ;;;
          ret {| fobj_name := tmp_name tmp; fobj_pending := None |}
      end
  end.

(** The text layer of a file object holds back fewer than [chunk_size]
    bytes, and the binary layer under it as many as its buffer takes: only
    data that exceed both are written by [fobj.write] itself. *)
Definition chunk_size : nat := 8 * 1024.

Definition write_through (tmp : TempFile) (data : string) : bool :=
  (chunk_size <=? String.length data)%nat &&
  (tmp_buffer_size tmp <? String.length data)%nat.

(** [fobj.write(text)]: the text is translated and encoded; the bytes are
    written to the file if they do not fit the buffers, and held back until
    the file is closed if they do.  When the write fails, the bytes that
    have reached the file stay in it. *)
Definition fobj_write (tmp : TempFile) (fobj : TextFile) (text : string)
    : M TextFile :=
  match encode (editor_encoding config) (translate_write (linesep config) text) with
  | None => raise UnicodeEncodeError
  | Some data =>
      if write_through tmp data then
        effect (sys_write (fobj_name fobj)) ;;;
        files <- get_fs ;;
        match tmp_write tmp with
        | Some e =>
            set_fs (<[fobj_name fobj := Py.take (tmp_written tmp) data]> files) ;;;
            raise (OSError e)
        | None =>
            set_fs (<[fobj_name fobj := data]> files) ;;;
            ret {| fobj_name := fobj_name fobj; fobj_pending := None |}
        end
      else ret {| fobj_name := fobj_name fobj; fobj_pending := Some data |}
  end.

(** Leaving the [with] block closes the file, which writes the bytes that
    were held back. *)
Definition fobj_close (tmp : TempFile) (fobj : TextFile) : M unit :=
  match fobj_pending fobj with
  | None => ret tt
  | Some data =>
      effect (sys_write (fobj_name fobj)) ;;;
      files <- get_fs ;;
      match tmp_close tmp with
      | Some e =>
          set_fs (<[fobj_name fobj := Py.take (tmp_written tmp) data]> files) ;;;
          raise (OSError e)
      | None => set_fs (<[fobj_name fobj := data]> files)
      end
  end.

(** [with open(filename, 'r', encoding=encoding) as f: text = f.read()] *)
Definition open_read (filename : option string) : M string :=
  match filename with
  | None => raise TypeError
  | Some name =>
      effect (sys_open name) ;;;
      files <- get_fs ;;
      match files !! name with
      | None => raise (OSError (FileNotFoundError name))
      | Some data =>
          match decode (editor_encoding config) data with
          | None => raise UnicodeDecodeError
          | Some text => ret (universal_newlines false text)
          end
      end
  end.

(** [os.remove(name)] *)
Definition os_remove (name : string) : M unit :=
  effect (sys_remove name) ;;;
  files <- get_fs ;;
  match files !! name with
  | None => raise (OSError (FileNotFoundError name))
  | Some _ => set_fs (delete name files)
  end.

(** ** The methods *)

(** [ExternalEditor._cleanup] *)
Definition _cleanup : M unit :=
  s <- get_self ;;
  match _remove_file s with
  | None => raise AssertionError
  | Some remove_file =>
      match _filename s, remove_file with
      | Some filename, true =>
          try_except_OSError
            (match _proc s with
             | None => raise AttributeError
             | Some proc =>
                 if negb (ExitStatus_eqb (exit_status proc) CrashExit)
                 then os_remove filename
                 else ret tt
             end)
            (fun e =>
               effect (message_error
                 ("Failed to delete tempfile... (" +:+ os_error_str e +:+ ")")))
      | _, _ => ret tt
      end
  end.

(** [ExternalEditor.on_proc_closed] *)
Definition on_proc_closed (exitcode : Z) (exitstatus : ExitStatus) : M unit :=
  if negb (ExitStatus_eqb exitstatus NormalExit) then ret tt
  else
    try_finally
      (if negb (exitcode =? 0) then ret tt
       else
         s <- get_self ;;
         read <- try_except_OSError
                   (text <- open_read (_filename s) ;; ret (Some text))
                   (fun e =>
                      effect (message_error
                        ("Failed to read back edited file: " +:+ os_error_str e)) ;;;
                      ret None) ;;
         match read with
         | None => ret tt
         | Some text => effect (editing_finished text)
         end)
      _cleanup.

(** [ExternalEditor.on_proc_error] *)
Definition on_proc_error (_err : ProcessError) : M unit := _cleanup.

(** The substitutions of [_sub_placeholder], for a file name that is
    set. *)
Definition sub_placeholder (filename possible_placeholder : string)
    (line column : Z) : string :=
  let sub := Py.replace possible_placeholder "{}" filename in
  let sub := Py.replace sub "{file}" filename in
  let sub := Py.replace sub "{line}" (Py.str line) in
  let sub := Py.replace sub "{line0}" (Py.str (line - 1)) in
  let sub := Py.replace sub "{column}" (Py.str column) in
  let sub := Py.replace sub "{column0}" (Py.str (column - 1)) in
  sub.

(** [ExternalEditor._sub_placeholder]; [str.replace] rejects [None]. *)
Definition _sub_placeholder (possible_placeholder : string) (line column : Z)
    : M string :=
  s <- get_self ;;
  match _filename s with
  | None => raise TypeError
  | Some filename => ret (sub_placeholder filename possible_placeholder line column)
  end.

(** [ExternalEditor._start_editor] *)
Definition _start_editor (line column : Z) : M unit :=
  set_proc (Some {| what := "editor"; exit_status := NormalExit |}) ;;;
  match editor_command config with
  | [] => raise IndexError
  | executable :: templates =>
      args <- mapM (fun arg => _sub_placeholder arg line column) templates ;;
      effect (proc_start executable args)
  end.

(** The caret arithmetic of [edit]. *)
Definition caret_line (text : string) (caret_position : Z) : Z :=
  Py.count (Py.slice_to text caret_position) Py.newline + 1.

Definition caret_column (text : string) (caret_position : Z) : Z :=
  caret_position - Py.rfind (Py.slice_to text caret_position) Py.newline.

(** [ExternalEditor.edit]; [tmp] is what the operating system answers to
    the request for a temporary file. *)
Definition edit (tmp : TempFile) (text : string) (caret_position : Z) : M unit :=
  s <- get_self ;;
  match _filename s with
  | Some _ => raise (ValueError "Already editing a file!")
  | None =>
      created <- try_except_OSError
                   (fobj <- NamedTemporaryFile tmp ;;
                    fobj <- (if String.eqb text "" then ret fobj
                             else fobj_write tmp fobj text) ;;
                    set_filename (Some (fobj_name fobj)) ;;;
                    fobj_close tmp fobj ;;;
                    ret true)
                   (fun e =>
                      effect (message_error
                        ("Failed to create initial file: " +:+ os_error_str e)) ;;;
                      ret false) ;;
      if created then
        set_remove_file (Some true) ;;;
        _start_editor (caret_line text caret_position)
                      (caret_column text caret_position)
      else ret tt
  end.

(** [ExternalEditor.edit_file] *)
Definition edit_file (filename : string) : M unit :=
  set_filename (Some filename) ;;;
  set_remove_file (Some false) ;;;
  _start_editor 1 1.

(** ** The process as the session sees it *)

(** The signals of the process that the session is connected to. *)
Inductive Signal :=
| finished (exitcode : Z) (exitstatus : ExitStatus)
| error (err : ProcessError).

Definition deliver (sig : Signal) : M unit :=
  match sig with
  | finished exitcode exitstatus => on_proc_closed exitcode exitstatus
  | error err => on_proc_error err
  end.

(** Delivers the signals in order; stops at the first exception. *)
Fixpoint deliver_all (sigs : list Signal) : M unit :=
  match sigs with
  | [] => ret tt
  | sig :: rest => deliver sig ;;; deliver_all rest
  end.

(** ** States reached by the methods *)

(** The outcome of the [try] block of [on_proc_closed] after a normal
    exit: how it ends and what it did. *)
Definition read_back (exitcode : Z) (st : State) : Res unit * list Effect :=
  if negb (exitcode =? 0) then (Ok tt, [])
  else
    match _filename (self st) with
    | None => (Raise TypeError, [])
    | Some name =>
        match fs st !! name with
        | None =>
            (Ok tt,
             [sys_open name;
              message_error ("Failed to read back edited file: " +:+
                             os_error_str (FileNotFoundError name))])
        | Some data =>
            match decode (editor_encoding config) data with
            | None => (Raise UnicodeDecodeError, [sys_open name])
            | Some text =>
                (Ok tt, [sys_open name;
                         editing_finished (universal_newlines false text)])
            end
        end
    end.

(** The temporary file of [edit] is created, written and closed without
    an error, and holds [data]. *)
Definition tempfile_written (tmp : TempFile) (text : string) (st : State)
    (data : string) : Prop :=
  _filename (self st) = None /\
  tmp_create tmp = None /\
  fs st !! tmp_name tmp = None /\
  tmp_close tmp = None /\
  if String.eqb text "" then data = ""
  else encode (editor_encoding config)
         (translate_write (linesep config) text) = Some data /\
       tmp_write tmp = None.

(** The state in which [edit] calls [_start_editor]. *)
Definition file_created (tmp : TempFile) (text : string) (st : State)
    (data : string) : State :=
  {| self := {| _filename := Some (tmp_name tmp);
                _proc := _proc (self st);
                _remove_file := Some true |};
     fs := <[tmp_name tmp := data]> (fs st);
     trace := trace st ++ sys_mkstemp (tmp_name tmp)
                :: (if String.eqb text "" then []
                    else [sys_write (tmp_name tmp)]) |}.

(** Where the making of the temporary file fails: in the creation of the
    file, in [fobj.write], or as the [with] block closes the file. *)
Inductive FailedAt := at_create | at_write | at_close.

(** The temporary file of [edit] cannot be created; or it is created and
    the text, encoded as [data], does not fit the buffers and the write of
    [fobj.write] fails; or it fits and the write at the closing of the file
    fails.  [e] is the error. *)
Definition tempfile_fails (tmp : TempFile) (text : string) (st : State)
    (e : os_error) (failed : FailedAt) (data : string) : Prop :=
  _filename (self st) = None /\
  match failed with
  | at_create =>
      tmp_create tmp = Some e \/
      (tmp_create tmp = None /\ is_Some (fs st !! tmp_name tmp) /\
       e = FileExistsError)
  | at_write =>
      tmp_create tmp = None /\
      fs st !! tmp_name tmp = None /\
      String.eqb text "" = false /\
      encode (editor_encoding config)
        (translate_write (linesep config) text) = Some data /\
      write_through tmp data = true /\
      tmp_write tmp = Some e
  | at_close =>
      tmp_create tmp = None /\
      fs st !! tmp_name tmp = None /\
      String.eqb text "" = false /\
      encode (editor_encoding config)
        (translate_write (linesep config) text) = Some data /\
      write_through tmp data = false /\
      tmp_close tmp = Some e
  end.

(** The state in which [edit] returns after such a failure. *)
Definition edit_aborted (tmp : TempFile) (st : State) (e : os_error)
    (failed : FailedAt) (data : string) : State :=
  {| self := match failed with
             | at_close => {| _filename := Some (tmp_name tmp);
                              _proc := _proc (self st);
                              _remove_file := _remove_file (self st) |}
             | _ => self st
             end;
     fs := match failed with
           | at_create => fs st
           | _ => <[tmp_name tmp := Py.take (tmp_written tmp) data]> (fs st)
           end;
     trace := trace st ++ sys_mkstemp (tmp_name tmp)
                :: match failed with
                   | at_create => []
                   | _ => [sys_write (tmp_name tmp)]
                   end
                ++ [message_error ("Failed to create initial file: " +:+
                                   os_error_str e)] |}.

(** The state in which [_start_editor] returns. *)
Definition editor_started (executable : string) (args : list string)
    (st : State) : State :=
  {| self := {| _filename := _filename (self st);
                _proc := Some {| what := "editor"; exit_status := NormalExit |};
                _remove_file := _remove_file (self st) |};
     fs := fs st;
     trace := trace st ++ [proc_start executable args] |}.

End WithConfig.

#[global] Arguments write_through : simpl never.
#[global] Arguments chunk_size : simpl never.

(** What the editor process does, as the session sees it: it leaves the
    file system as [files] and ends with the given exit status. *)
Definition terminates (files : gmap string string) (status : ExitStatus)
    (st : State) : State :=
  {| self := {| _filename := _filename (self st);
                _proc := match _proc (self st) with
                         | Some p => Some {| what := what p; exit_status := status |}
                         | None => None
                         end;
                _remove_file := _remove_file (self st) |};
     fs := files;
     trace := trace st |}.

(** The signals of a process that crashed. *)
Definition crash_signal (sig : Signal) : bool :=
  match sig with
  | finished _ CrashExit => true
  | finished _ NormalExit => false
  | error _ => true
  end.

(** The texts [editing_finished] was emitted with, oldest first. *)
Fixpoint emitted (t : list Effect) : list string :=
  match t with
  | [] => []
  | editing_finished text :: t' => text :: emitted t'
  | _ :: t' => emitted t'
  end.

(** The files [os.remove] was called on, oldest first. *)
Fixpoint removed (t : list Effect) : list string :=
  match t with
  | [] => []
  | sys_remove name :: t' => name :: removed t'
  | _ :: t' => removed t'
  end.

(** The files opened for reading, oldest first. *)
Fixpoint opened (t : list Effect) : list string :=
  match t with
  | [] => []
  | sys_open name :: t' => name :: opened t'
  | _ :: t' => opened t'
  end.

(** The processes started, oldest first. *)
Fixpoint started (t : list Effect) : list (string * list string) :=
  match t with
  | [] => []
  | proc_start executable args :: t' => (executable, args) :: started t'
  | _ :: t' => started t'
  end.

(** No carriage return occurs in [s]. *)
Fixpoint no_cr (s : string) : bool :=
  match s with
  | "" => true
  | String c s' => negb (Ascii.eqb c Py.CR) && no_cr s'
  end.

(** The codec [latin-1]: every 8-bit character is one byte. *)
Definition latin_1 : Codec := {| encode := Some; decode := Some |}.

(** ** The caret position in the specification's words *)

(** Whether the character of [text] at index [i] is a newline. *)
Definition is_newline_at (text : string) (i : nat) : bool :=
  match String.get i text with
  | Some c => Ascii.eqb c Py.LF
  | None => false
  end.

(** The number of newline characters at the indices below [n]. *)
Fixpoint newlines_before (text : string) (n : nat) : nat :=
  match n with
  | O => O
  | S k => (newlines_before text k + if is_newline_at text k then 1 else 0)%nat
  end.

(** The index of the last newline below index [n], [-1] if none exists. *)
Fixpoint last_newline_before (text : string) (n : nat) : Z :=
  match n with
  | O => -1
  | S k => if is_newline_at text k then Z.of_nat k
           else last_newline_before text k
  end.

(** ** Placeholders, one at a time *)

(** The six placeholders, named after what they stand for. *)
Inductive Placeholder :=
  ph_empty | ph_file | ph_line | ph_line0 | ph_column | ph_column0.

Definition token (p : Placeholder) : string :=
  match p with
  | ph_empty => "{}"
  | ph_file => "{file}"
  | ph_line => "{line}"
  | ph_line0 => "{line0}"
  | ph_column => "{column}"
  | ph_column0 => "{column0}"
  end.

Definition value (filename : string) (line column : Z) (p : Placeholder) : string :=
  match p with
  | ph_empty | ph_file => filename
  | ph_line => Py.str line
  | ph_line0 => Py.str (line - 1)
  | ph_column => Py.str column
  | ph_column0 => Py.str (column - 1)
  end.

(** The order in which [_sub_placeholder] replaces them. *)
Definition source_order : list Placeholder :=
  [ph_empty; ph_file; ph_line; ph_line0; ph_column; ph_column0].

(** The placeholders replaced one after the other in the given order. *)
Definition substitute_in_order (order : list Placeholder) (filename : string)
    (line column : Z) (arg : string) : string :=
  fold_left (fun sub p => Py.replace sub (token p) (value filename line column p))
    order arg.

(** An argument template cut into placeholders and the text between
    them. *)
Inductive Piece :=
| Lit (s : string)
| Tok (p : Placeholder).

Fixpoint render (pieces : list Piece) : string :=
  match pieces with
  | [] => ""
  | Lit s :: rest => s +:+ render rest
  | Tok p :: rest => token p +:+ render rest
  end.

(** Every placeholder of the template replaced by its value at once. *)
Fixpoint fill (filename : string) (line column : Z) (pieces : list Piece) : string :=
  match pieces with
  | [] => ""
  | Lit s :: rest => s +:+ fill filename line column rest
  | Tok p :: rest => value filename line column p +:+ fill filename line column rest
  end.

#[global] Instance Placeholder_eq_dec : EqDecision Placeholder.
Proof. solve_decision. Defined.

(** The template after [p] alone has been replaced by [new]. *)
Definition fill_one (p : Placeholder) (new : string) (piece : Piece) : Piece :=
  match piece with
  | Tok q => if decide (q = p) then Lit new else Tok q
  | Lit s => Lit s
  end.

(** A piece after the placeholders of [order] have been replaced. *)
Definition after (filename : string) (line column : Z)
    (order : list Placeholder) (piece : Piece) : Piece :=
  fold_left (fun pc p => fill_one p (value filename line column p) pc)
    order piece.

(** No opening brace occurs in [s]. *)
Fixpoint no_open_brace (s : string) : bool :=
  match s with
  | "" => true
  | String c s' => negb (Ascii.eqb c "{"%char) && no_open_brace s'
  end.

Definition plain (piece : Piece) : bool :=
  match piece with
  | Lit s => no_open_brace s
  | Tok _ => true
  end.

(** ** Sample collaborators *)

Definition vim : Config :=
  {| editor_command := ["gvim"; "-f"; "{file}"; "-c"; "normal {line}G{column0}l"];
     editor_encoding := latin_1;
     linesep := Py.newline |}.

Definition idle : State := {| self := __init__; fs := ∅; trace := [] |}.

Definition tmp_disk_full : TempFile :=
  {| tmp_dir := "/tmp"; tmp_random := "k3x9_a2b"; tmp_buffer_size := 4096;
     tmp_create := None;
     tmp_write := Some (OtherOSError "[Errno 28] No space left on device");
     tmp_close := None;
     tmp_written := 0 |}.

Definition tmp_ok : TempFile :=
  {| tmp_dir := "/tmp"; tmp_random := "k3x9_a2b"; tmp_buffer_size := 4096;
     tmp_create := None; tmp_write := None; tmp_close := None;
     tmp_written := 0 |}.

(** The error shows only when the file is closed. *)
Definition tmp_close_fails : TempFile :=
  {| tmp_dir := "/tmp"; tmp_random := "k3x9_a2b"; tmp_buffer_size := 4096;
     tmp_create := None; tmp_write := None;
     tmp_close := Some (OtherOSError "[Errno 28] No space left on device");
     tmp_written := 0 |}.



(** The codec [ascii]: only the characters below 128 can be encoded or
    decoded. *)
Fixpoint is_ascii (s : string) : bool :=
  match s with
  | "" => true
  | String c s' => (nat_of_ascii c <? 128)%nat && is_ascii s'
  end.

Definition ascii_codec : Codec :=
  {| encode := fun s => if is_ascii s then Some s else None;
     decode := fun s => if is_ascii s then Some s else None |}.

Definition vim_ascii : Config :=
  {| editor_command := editor_command vim;
     editor_encoding := ascii_codec;
     linesep := Py.newline |}.

(** A configuration whose editor command is empty. *)
Definition no_command : Config :=
  {| editor_command := [];
     editor_encoding := latin_1;
     linesep := Py.newline |}.

(** A character above 127. *)
Definition e_acute : string := String "233"%char "".

End Editor.

(** * Properties *)

(** ** Python strings *)

Module PyFacts.
Import Py.

Lemma length_take n s :
  (n <= String.length s)%nat -> String.length (take n s) = n.
Proof.
  revert s; induction n as [|n IH]; intros [|c s] Hn; simpl in *; try lia.
  rewrite IH; lia.
Qed.

Lemma take_all s : take (String.length s) s = s.
Proof. induction s as [|c s IH]; simpl; [done | by rewrite IH]. Qed.

Lemma get_take n s j : (j < n)%nat -> String.get j (take n s) = String.get j s.
Proof.
  revert s j; induction n as [|n IH]; intros [|c s] [|j] Hj; simpl; try done; try lia.
  apply IH; lia.
Qed.

Lemma slice_to_inside s stop :
  0 <= stop <= len s -> slice_to s stop = take (Z.to_nat stop) s.
Proof.
  intros H. unfold slice_to.
  destruct (Z.ltb_spec stop 0) as [?|_]; [lia|].
  by rewrite Z.min_l by lia.
Qed.

Lemma slice_to_beyond s stop : len s <= stop -> slice_to s stop = s.
Proof.
  intros H. unfold slice_to, len in *.
  destruct (Z.ltb_spec stop 0) as [?|_]; [lia|].
  rewrite Z.min_r by lia. rewrite Nat2Z.id. apply take_all.
Qed.

Lemma startswith_newline c s : startswith newline (String c s) = Ascii.eqb LF c.
Proof. simpl. destruct s; apply andb_true_r. Qed.

Lemma startswith_app p s : startswith p (p +:+ s) = true.
Proof.
  induction p as [|a p IH]; simpl; [done|].
  by rewrite Ascii.eqb_refl, IH.
Qed.

Lemma append_assoc (a b c : string) : (a +:+ b) +:+ c = a +:+ (b +:+ c).
Proof. induction a as [|x a IH]; cbn; [done | by f_equal]. Qed.

Lemma append_empty_r (a : string) : a +:+ "" = a.
Proof. induction a as [|x a IH]; cbn; [done | by f_equal]. Qed.

(** Once a match is found, [replace_from] passes over its characters. *)
Lemma replace_from_skip old new u s :
  replace_from old new (String.length u) (u +:+ s) = replace_from old new 0 s.
Proof.
  induction u as [|a u IH]; simpl; [done | exact IH].
Qed.

End PyFacts.

(** ** The caret arithmetic *)

Module CaretFacts.
Import Py PyFacts Editor.

Lemma is_newline_at_head c s :
  is_newline_at (String c s) 0 = Ascii.eqb LF c.
Proof. unfold is_newline_at; simpl. apply Ascii.eqb_sym. Qed.

Lemma is_newline_at_tail c s j :
  is_newline_at (String c s) (S j) = is_newline_at s j.
Proof. done. Qed.

Lemma is_newline_at_take n s j :
  (j < n)%nat -> is_newline_at (take n s) j = is_newline_at s j.
Proof. intros H. unfold is_newline_at. by rewrite get_take. Qed.

Lemma newlines_before_cons c s n :
  newlines_before (String c s) (S n) =
  ((if Ascii.eqb LF c then 1 else 0) + newlines_before s n)%nat.
Proof.
  induction n as [|n IH].
  - simpl. rewrite is_newline_at_head. by destruct (Ascii.eqb LF c).
  - change (newlines_before (String c s) (S (S n)))
      with (newlines_before (String c s) (S n)
            + if is_newline_at (String c s) (S n) then 1 else 0)%nat.
    rewrite IH, is_newline_at_tail. simpl. lia.
Qed.

Lemma newlines_before_take s n m :
  (m <= n)%nat -> newlines_before (take n s) m = newlines_before s m.
Proof.
  induction m as [|m IH]; intros H; simpl; [done|].
  rewrite IH by lia. by rewrite is_newline_at_take by lia.
Qed.

Lemma count_from_newline s :
  count_from newline 0 s = newlines_before s (String.length s).
Proof.
  induction s as [|c s IH]; [done|].
  change (String.length (String c s)) with (S (String.length s)).
  rewrite newlines_before_cons, <- IH.
  cbn [count_from]. rewrite startswith_newline.
  by destruct (Ascii.eqb LF c).
Qed.

Lemma last_newline_before_bounds s n :
  -1 <= last_newline_before s n < Z.of_nat n.
Proof.
  induction n as [|n IH]; simpl; [lia|].
  destruct (is_newline_at s n); lia.
Qed.

Lemma last_newline_before_cons c s n :
  last_newline_before (String c s) (S n) =
  let r := last_newline_before s n in
  if r =? -1 then (if Ascii.eqb LF c then 0 else -1) else r + 1.
Proof.
  induction n as [|n IH].
  - simpl. by rewrite is_newline_at_head.
  - change (last_newline_before (String c s) (S (S n)))
      with (if is_newline_at (String c s) (S n) then Z.of_nat (S n)
            else last_newline_before (String c s) (S n)).
    rewrite is_newline_at_tail, IH. simpl.
    destruct (is_newline_at s n).
    + destruct (Z.eqb_spec (Z.of_nat n) (-1)); lia.
    + done.
Qed.

Lemma last_newline_before_take s n m :
  (m <= n)%nat -> last_newline_before (take n s) m = last_newline_before s m.
Proof.
  induction m as [|m IH]; intros H; simpl; [done|].
  rewrite IH by lia. by rewrite is_newline_at_take by lia.
Qed.

Lemma rfind_from_newline s i last :
  rfind_from newline i last s =
  let r := last_newline_before s (String.length s) in
  if r =? -1 then last else i + r.
Proof.
  revert i last; induction s as [|c s IH]; intros i last; [done|].
  change (String.length (String c s)) with (S (String.length s)).
  rewrite last_newline_before_cons.
  cbn [rfind_from]. rewrite startswith_newline, IH. cbv zeta.
  pose proof (last_newline_before_bounds s (String.length s)).
  destruct (Z.eqb_spec (last_newline_before s (String.length s)) (-1)) as [Heq|Hne].
  - destruct (Ascii.eqb LF c); simpl; [lia | done].
  - destruct (Z.eqb_spec (last_newline_before s (String.length s) + 1) (-1)); lia.
Qed.

Lemma rfind_newline s :
  rfind s newline = last_newline_before s (String.length s).
Proof.
  unfold rfind. rewrite rfind_from_newline. cbv zeta.
  destruct (Z.eqb_spec (last_newline_before s (String.length s)) (-1)); lia.
Qed.

Lemma count_newline s :
  count s newline = Z.of_nat (newlines_before s (String.length s)).
Proof. unfold count, newline. by rewrite <- count_from_newline. Qed.

Lemma caret_line_inside text cp :
  0 <= cp <= len text ->
  caret_line text cp = Z.of_nat (newlines_before text (Z.to_nat cp)) + 1.
Proof.
  intros H. unfold caret_line. rewrite slice_to_inside, count_newline by done.
  unfold len in H.
  rewrite length_take by lia. by rewrite newlines_before_take.
Qed.

Lemma caret_column_inside text cp :
  0 <= cp <= len text ->
  caret_column text cp = cp - last_newline_before text (Z.to_nat cp).
Proof.
  intros H. unfold caret_column. rewrite slice_to_inside, rfind_newline by done.
  unfold len in H.
  rewrite length_take by lia. by rewrite last_newline_before_take.
Qed.

End CaretFacts.

(** ** Running the methods *)

Module EditorFacts.
Import Py PyFacts Editor.

Section WithConfig.

Variable config : Config.

Lemma mapM_sub_placeholder filename line column templates st :
  _filename (self st) = Some filename ->
  mapM (fun arg => _sub_placeholder arg line column) templates st =
  (Ok (map (fun arg => sub_placeholder filename arg line column) templates), st).
Proof.
  intros Hf. induction templates as [|arg templates IH]; [done|].
  cbn [mapM map]. unfold bind at 1.
  unfold _sub_placeholder at 1, bind, get_self. rewrite Hf.
  fold (@bind (list string) (list string)). unfold ret at 1.
  unfold bind. by rewrite IH.
Qed.

Lemma start_editor_run executable templates filename line column st :
  editor_command config = executable :: templates ->
  _filename (self st) = Some filename ->
  _start_editor config line column st =
  (Ok tt, editor_started executable
            (map (fun arg => sub_placeholder filename arg line column) templates)
            st).
Proof.
  intros Hc Hf. unfold _start_editor. rewrite Hc.
  unfold bind at 1. unfold set_proc, bind, get_self, set_self.
  rewrite (mapM_sub_placeholder filename) by done.
  unfold effect, record, editor_started. simpl. by rewrite Hf.
Qed.

Lemma start_editor_no_command line column st :
  editor_command config = [] ->
  fst (_start_editor config line column st) = Raise IndexError.
Proof. intros Hc. unfold _start_editor. by rewrite Hc. Qed.

Lemma edit_creates tmp text caret_position st data :
  tempfile_written config tmp text st data ->
  edit config tmp text caret_position st =
  _start_editor config (caret_line text caret_position)
    (caret_column text caret_position) (file_created tmp text st data).
Proof.
  intros (Hf & Hc & Hfresh & Hclose & Hw).
  unfold edit, bind at 1, get_self. rewrite Hf.
  unfold bind at 1, try_except_OSError, NamedTemporaryFile.
  unfold fobj_write, fobj_close, set_filename, set_remove_file, effect, record,
    get_fs, set_fs, get_self, set_self, ret, raise, file_created, bind.
  rewrite Hc; cbn. rewrite Hfresh; cbn.
  destruct (String.eqb text "").
  - cbn. by rewrite Hw.
  - destruct Hw as [-> ->].
    destruct (write_through tmp data); cbn; rewrite ?Hclose; cbn;
      by rewrite insert_insert_eq, <- app_assoc.
Qed.

End WithConfig.

End EditorFacts.

(** ** The callbacks *)

Module CallbackFacts.
Import Py PyFacts Editor EditorFacts.

Ltac run :=
  unfold on_proc_closed, on_proc_error, _cleanup, try_finally,
    try_except_OSError, open_read, os_remove, bind, ret, raise,
    get_self, get_fs, set_fs, effect, record;
  simpl.

Lemma emitted_app t1 t2 : emitted (t1 ++ t2) = emitted t1 ++ emitted t2.
Proof.
  induction t1 as [|e t1 IH]; [done|].
  destruct e; simpl; by rewrite IH.
Qed.

Lemma removed_app t1 t2 : removed (t1 ++ t2) = removed t1 ++ removed t2.
Proof.
  induction t1 as [|e t1 IH]; [done|].
  destruct e; simpl; by rewrite IH.
Qed.

Lemma opened_app t1 t2 : opened (t1 ++ t2) = opened t1 ++ opened t2.
Proof.
  induction t1 as [|e t1 IH]; [done|].
  destruct e; simpl; by rewrite IH.
Qed.

Lemma started_app t1 t2 : started (t1 ++ t2) = started t1 ++ started t2.
Proof.
  induction t1 as [|e t1 IH]; [done|].
  destruct e; simpl; by rewrite IH.
Qed.

Lemma state_eta st :
  {| self := self st; fs := fs st; trace := trace st |} = st.
Proof. by destruct st. Qed.

(** [_cleanup] without a file of its own returns at once. *)
Lemma cleanup_nothing_to_do st remove_file :
  _remove_file (self st) = Some remove_file ->
  _filename (self st) = None \/ remove_file = false ->
  _cleanup st = (Ok tt, st).
Proof.
  intros Hr H. run. rewrite Hr.
  destruct (_filename (self st)), remove_file; try done.
  by destruct H.
Qed.

Lemma cleanup_unset st :
  _remove_file (self st) = None -> _cleanup st = (Raise AssertionError, st).
Proof. intros Hr. run. by rewrite Hr. Qed.

(** [_cleanup] after a crash keeps the temporary file. *)
Lemma cleanup_crashed st filename proc :
  _remove_file (self st) = Some true ->
  _filename (self st) = Some filename ->
  _proc (self st) = Some proc ->
  exit_status proc = CrashExit ->
  _cleanup st = (Ok tt, st).
Proof. intros Hr Hf Hp Hs. run. by rewrite Hr, Hf, Hp, Hs. Qed.

(** [_cleanup] after the process ended without a crash removes the
    temporary file, and tells the user when that fails. *)
Lemma cleanup_removes st filename proc :
  _remove_file (self st) = Some true ->
  _filename (self st) = Some filename ->
  _proc (self st) = Some proc ->
  exit_status proc = NormalExit ->
  _cleanup st =
  (Ok tt,
   {| self := self st;
      fs := delete filename (fs st);
      trace := trace st ++ sys_remove filename ::
               match fs st !! filename with
               | Some _ => []
               | None =>
                   [message_error
                      ("Failed to delete tempfile... (" +:+
                       os_error_str (FileNotFoundError filename) +:+ ")")]
               end |}).
Proof.
  intros Hr Hf Hp Hs. run. rewrite Hr, Hf, Hp, Hs. simpl.
  destruct (fs st !! filename) eqn:Hfile; simpl.
  - done.
  - rewrite <- app_assoc. by rewrite delete_id.
Qed.

Lemma record_nil st : record [] st = st.
Proof. unfold record. rewrite app_nil_r. apply state_eta. Qed.

(** [on_proc_closed] after a normal exit: the [try] block, then
    [_cleanup], whose exception, if any, replaces the outcome. *)
Lemma on_proc_closed_normal config exitcode st :
  on_proc_closed config exitcode NormalExit st =
  match _cleanup (record (read_back config exitcode st).2 st) with
  | (Ok _, st') => ((read_back config exitcode st).1, st')
  | (Raise e, st') => (Raise e, st')
  end.
Proof.
  unfold on_proc_closed, read_back, try_finally. cbn [ExitStatus_eqb negb].
  destruct (negb (exitcode =? 0)); [by rewrite record_nil|].
  unfold bind at 1, get_self.
  destruct (_filename (self st)) as [name|]; [|by rewrite record_nil].
  unfold bind, try_except_OSError, open_read, bind, effect, get_fs, ret.
  cbn [fs record].
  destruct (fs st !! name) as [data|]; cbn.
  - destruct (decode (editor_encoding config) data); cbn;
      unfold record; cbn; by rewrite <- ?app_assoc.
  - unfold record; cbn; by rewrite <- ?app_assoc.
Qed.

Lemma on_proc_closed_crash config exitcode st :
  on_proc_closed config exitcode CrashExit st = (Ok tt, st).
Proof. done. Qed.

(** What the [try] block does never removes a file and never starts a
    process, and it emits [editing_finished] at most once. *)
Lemma read_back_effects config exitcode st :
  removed (read_back config exitcode st).2 = [] /\
  started (read_back config exitcode st).2 = [] /\
  (length (emitted (read_back config exitcode st).2) <= 1)%nat.
Proof.
  unfold read_back. repeat case_match; simpl; repeat split; lia.
Qed.

Lemma read_back_nonzero config exitcode st :
  exitcode <> 0 -> read_back config exitcode st = (Ok tt, []).
Proof.
  intros H. unfold read_back.
  by destruct (Z.eqb_spec exitcode 0).
Qed.

Lemma read_back_unmodified config st name data text :
  _filename (self st) = Some name ->
  fs st !! name = Some data ->
  decode (editor_encoding config) data = Some text ->
  read_back config 0 st =
  (Ok tt, [sys_open name; editing_finished (universal_newlines false text)]).
Proof. intros Hf Hd He. unfold read_back. simpl. by rewrite Hf, Hd, He. Qed.

(** [_cleanup] never emits [editing_finished] and never starts a
    process. *)
Lemma cleanup_quiet st :
  emitted (trace (_cleanup st).2) = emitted (trace st) /\
  started (trace (_cleanup st).2) = started (trace st) /\
  opened (trace (_cleanup st).2) = opened (trace st).
Proof.
  run. repeat case_match; simpl in *; simplify_eq; simpl;
    rewrite ?emitted_app, ?started_app, ?opened_app; simpl;
    rewrite ?app_nil_r; done.
Qed.




Section WithConfig.

Variable config : Config.

(** [edit] when the temporary file cannot be created or written. *)
Lemma edit_aborts tmp text caret_position st e failed data :
  tempfile_fails config tmp text st e failed data ->
  edit config tmp text caret_position st =
  (Ok tt, edit_aborted tmp st e failed data).
Proof.
  intros [Hf H].
  unfold edit, bind at 1, get_self. rewrite Hf.
  unfold bind at 1, try_except_OSError, NamedTemporaryFile.
  unfold fobj_write, fobj_close, set_filename, set_remove_file, effect, record,
    get_fs, set_fs, get_self, set_self, ret, raise, edit_aborted, bind.
  destruct failed.
  - destruct H as [-> | (-> & [content Hd] & ->)]; cbn.
    + by rewrite <- !app_assoc.
    + rewrite Hd. cbn. by rewrite <- !app_assoc.
  - destruct H as (-> & Hfresh & -> & -> & -> & ->). cbn.
    rewrite Hfresh. cbn. by rewrite insert_insert_eq, <- !app_assoc.
  - destruct H as (-> & Hfresh & -> & -> & -> & ->). cbn.
    rewrite Hfresh. cbn. by rewrite insert_insert_eq, <- !app_assoc.
Qed.

Lemma edit_starts tmp text caret_position st data executable templates :
  tempfile_written config tmp text st data ->
  editor_command config = executable :: templates ->
  edit config tmp text caret_position st =
  (Ok tt,
   editor_started executable
     (map (fun arg => sub_placeholder (tmp_name tmp) arg
                        (caret_line text caret_position)
                        (caret_column text caret_position)) templates)
     (file_created tmp text st data)).
Proof.
  intros Htmp Hcmd. rewrite (edit_creates _ _ _ _ _ data) by done.
  by apply start_editor_run.
Qed.

(** [edit] raises when a file name is set, and changes nothing. *)
Lemma edit_guard tmp text caret_position st filename :
  _filename (self st) = Some filename ->
  edit config tmp text caret_position st =
  (Raise (ValueError "Already editing a file!"), st).
Proof. intros Hf. unfold edit, bind, get_self. by rewrite Hf. Qed.

(** [edit_file] has no such guard. *)
Lemma edit_file_run filename st executable templates :
  editor_command config = executable :: templates ->
  edit_file config filename st =
  (Ok tt,
   editor_started executable
     (map (fun arg => sub_placeholder filename arg 1 1) templates)
     {| self := {| _filename := Some filename;
                   _proc := _proc (self st);
                   _remove_file := Some false |};
        fs := fs st;
        trace := trace st |}).
Proof.
  intros Hcmd.
  unfold edit_file, set_filename, set_remove_file, bind, get_self, set_self.
  cbn -[_start_editor].
  by rewrite (start_editor_run _ executable templates filename).
Qed.

(** Whatever [_start_editor] does, [edit_file] leaves the session as
    one that does not own its file, and the file system as it was. *)
Lemma edit_file_not_owner filename st :
  _remove_file (self (edit_file config filename st).2) = Some false /\
  fs (edit_file config filename st).2 = fs st /\
  removed (trace (edit_file config filename st).2) = removed (trace st).
Proof.
  unfold edit_file, _start_editor, set_filename, set_remove_file, set_proc,
    bind, get_self, set_self, effect, record, raise. cbn.
  destruct (editor_command config) as [|executable templates]; [done|].
  rewrite (mapM_sub_placeholder filename) by done. cbn.
  rewrite removed_app. cbn. by rewrite app_nil_r.
Qed.

Lemma file_created_quiet tmp text st data :
  emitted (trace (file_created tmp text st data)) = emitted (trace st) /\
  removed (trace (file_created tmp text st data)) = removed (trace st) /\
  opened (trace (file_created tmp text st data)) = opened (trace st) /\
  started (trace (file_created tmp text st data)) = started (trace st).
Proof.
  unfold file_created. cbn.
  rewrite emitted_app, removed_app, opened_app, started_app.
  destruct (String.eqb text ""); cbn; by rewrite !app_nil_r.
Qed.


(** In a session that does not own its file the callbacks change
    nothing but the trace, and remove nothing. *)
Lemma deliver_not_owner sig st :
  _remove_file (self st) = Some false ->
  self (deliver config sig st).2 = self st /\
  fs (deliver config sig st).2 = fs st /\
  removed (trace (deliver config sig st).2) = removed (trace st).
Proof.
  intros Hr. destruct sig as [exitcode [] | err]; cbn [deliver].
  - rewrite on_proc_closed_normal.
    rewrite (cleanup_nothing_to_do _ false) by (by auto).
    cbn. rewrite removed_app.
    destruct (read_back_effects config exitcode st) as (-> & _).
    by rewrite app_nil_r.
  - by rewrite on_proc_closed_crash.
  - unfold on_proc_error.
    by rewrite (cleanup_nothing_to_do _ false) by (by auto).
Qed.

Lemma deliver_all_not_owner sigs st :
  _remove_file (self st) = Some false ->
  fs (deliver_all config sigs st).2 = fs st /\
  removed (trace (deliver_all config sigs st).2) = removed (trace st).
Proof.
  revert st; induction sigs as [|sig sigs IH]; intros st Hr; [done|].
  cbn [deliver_all]. unfold bind.
  destruct (deliver_not_owner sig st Hr) as (Hs & Hf & Ht).
  destruct (deliver config sig st) as [[[]|e] st']; simpl in *.
  - destruct (IH st') as [-> ->]; [by rewrite Hs | done].
  - done.
Qed.

(** After a crash the callbacks do nothing at all. *)
Lemma deliver_all_crashed sigs st filename proc :
  _remove_file (self st) = Some true ->
  _filename (self st) = Some filename ->
  _proc (self st) = Some proc ->
  exit_status proc = CrashExit ->
  forallb crash_signal sigs = true ->
  deliver_all config sigs st = (Ok tt, st).
Proof.
  intros Hr Hf Hp Hs. induction sigs as [|sig sigs IH]; intros H; [done|].
  cbn [forallb] in H. apply andb_true_iff in H as [Hsig H].
  cbn [deliver_all]. unfold bind.
  destruct sig as [exitcode [] | err]; try done; cbn [deliver].
  - rewrite on_proc_closed_crash. by apply IH.
  - unfold on_proc_error. rewrite (cleanup_crashed st filename proc) by done.
    by apply IH.
Qed.

End WithConfig.

End CallbackFacts.

(** ** Placeholder substitution *)

Module SubstFacts.
Import Py PyFacts Editor.

Lemma no_open_brace_app s t :
  no_open_brace (s +:+ t) = no_open_brace s && no_open_brace t.
Proof.
  induction s as [|c s IH]; simpl; [done|].
  by rewrite IH, andb_assoc.
Qed.

Lemma no_open_brace_uint d : no_open_brace (NilEmpty.string_of_uint d) = true.
Proof. induction d; simpl; by rewrite ?IHd. Qed.

Lemma no_open_brace_str n : no_open_brace (str n) = true.
Proof.
  unfold str, NilZero.string_of_int, NilZero.string_of_uint.
  destruct (Z.to_int n) as [d|d]; destruct d; try done;
    cbn [no_open_brace negb andb]; apply (no_open_brace_uint d).
Qed.

Lemma no_open_brace_value filename line column p :
  no_open_brace filename = true ->
  no_open_brace (value filename line column p) = true.
Proof. intros H. destruct p; simpl; auto using no_open_brace_str. Qed.

Lemma token_shape p :
  exists tail, token p = String "{" tail /\ no_open_brace tail = true.
Proof. destruct p; eexists; split; reflexivity. Qed.

(** Text without an opening brace is copied. *)
Lemma replace_from_copy old new s rest :
  no_open_brace s = true ->
  replace_from (String "{" old) new 0 (s +:+ rest) =
  s +:+ replace_from (String "{" old) new 0 rest.
Proof.
  induction s as [|c s IH]; intros H; [done|].
  simpl in H. apply andb_true_iff in H as [Hc Hs].
  cbn [append replace_from startswith].
  rewrite Ascii.eqb_sym. apply negb_true_iff in Hc. rewrite Hc.
  cbn [andb]. by rewrite IH.
Qed.

(** An occurrence at the head is replaced and passed over. *)
Lemma replace_from_head a old new rest :
  replace_from (String a old) new 0 (String a old +:+ rest) =
  new +:+ replace_from (String a old) new 0 rest.
Proof.
  cbn [append replace_from].
  change (String a (old +:+ rest)) with (String a old +:+ rest) at 1.
  rewrite startswith_app.
  change (String.length (String a old) - 1)%nat with (String.length old - 0)%nat.
  rewrite Nat.sub_0_r. by rewrite replace_from_skip.
Qed.

Lemma startswith_other_token p q rest :
  p <> q -> startswith (token p) (token q +:+ rest) = false.
Proof. destruct p, q; intros H; try done; reflexivity. Qed.

(** Another placeholder at the head is copied. *)
Lemma replace_from_other_token p q new rest :
  p <> q ->
  replace_from (token p) new 0 (token q +:+ rest) =
  token q +:+ replace_from (token p) new 0 rest.
Proof.
  intros Hne. pose proof (startswith_other_token p q rest Hne) as Hs.
  destruct (token_shape q) as (tail & Hq & Htail).
  destruct (token_shape p) as (old & Hp & _).
  rewrite Hq in *. rewrite Hp in *.
  cbn [append replace_from] in *. rewrite Hs.
  by rewrite replace_from_copy.
Qed.

Lemma replace_token s p new :
  replace s (token p) new = replace_from (token p) new 0 s.
Proof. by destruct p. Qed.

(** Replacing one placeholder in a template whose text has no opening
    brace replaces exactly the pieces that are this placeholder. *)
Lemma replace_render p new pieces :
  forallb plain pieces = true ->
  replace (render pieces) (token p) new = render (map (fill_one p new) pieces).
Proof.
  rewrite replace_token.
  induction pieces as [|[s|q] pieces IH]; intros H; [done| |];
    cbn [forallb] in H; apply andb_true_iff in H as [Hs H];
    cbn [render map fill_one].
  - destruct (token_shape p) as (old & Hp & _). rewrite Hp in *.
    rewrite replace_from_copy by done. by rewrite IH.
  - destruct (decide (q = p)) as [->|Hne].
    + destruct (token_shape p) as (old & Hp & _). rewrite Hp in *.
      rewrite replace_from_head. cbn [render]. by rewrite IH.
    + rewrite replace_from_other_token by done. cbn [render]. by rewrite IH.
Qed.

Lemma plain_fill_one p new pieces :
  no_open_brace new = true ->
  forallb plain pieces = true ->
  forallb plain (map (fill_one p new) pieces) = true.
Proof.
  intros Hn. induction pieces as [|[s|q] pieces IH]; intros H; [done| |];
    cbn [forallb] in H; apply andb_true_iff in H as [Hs H];
    cbn [map forallb fill_one].
  - by rewrite IH, Hs.
  - destruct (decide (q = p)); cbn [plain]; rewrite IH by done;
      [by rewrite Hn | done].
Qed.

Lemma substitute_in_order_cons p order filename line column arg :
  substitute_in_order (p :: order) filename line column arg =
  substitute_in_order order filename line column
    (replace arg (token p) (value filename line column p)).
Proof. done. Qed.

Section Values.

Variables (filename : string) (line column : Z).
Hypothesis filename_plain : no_open_brace filename = true.

Lemma after_lit order s : after filename line column order (Lit s) = Lit s.
Proof. induction order as [|p order IH]; [done | exact IH]. Qed.

Lemma after_tok order q :
  In q order ->
  after filename line column order (Tok q) =
  Lit (value filename line column q).
Proof.
  induction order as [|p order IH]; intros Hin; [done|].
  unfold after. cbn [fold_left fill_one].
  destruct (decide (q = p)) as [->|Hne].
  - apply after_lit.
  - destruct Hin as [->|Hin]; [done | by apply IH].
Qed.

Lemma substitute_in_order_render order pieces :
  forallb plain pieces = true ->
  substitute_in_order order filename line column (render pieces) =
  render (map (after filename line column order) pieces).
Proof.
  revert pieces; induction order as [|p order IH]; intros pieces H.
  - unfold after. simpl. by rewrite map_id.
  - rewrite substitute_in_order_cons, replace_render by done.
    rewrite IH by (apply plain_fill_one;
                   [by apply no_open_brace_value | done]).
    by rewrite map_map.
Qed.

Lemma render_after order pieces :
  (forall p, In p order) ->
  render (map (after filename line column order) pieces) =
  fill filename line column pieces.
Proof.
  intros Hall. induction pieces as [|[s|q] pieces IH]; [done| |];
    cbn [map render fill].
  - by rewrite after_lit, IH.
  - rewrite after_tok by done. cbn [render]. by rewrite IH.
Qed.

End Values.

(** An argument in which [old] does not occur is not changed. *)
Lemma replace_from_absent old new s :
  contains s old = false -> replace_from old new 0 s = s.
Proof.
  induction s as [|c s IH]; [done|].
  cbn [contains replace_from]. intros H.
  apply orb_false_iff in H as [-> H]. by rewrite IH.
Qed.

End SubstFacts.

(** ** The claims of the specification *)

Module Spec.
Import Py PyFacts Editor CaretFacts EditorFacts CallbackFacts SubstFacts.

(** C1.  For every text and every caret position within the text, [edit]
    starts the editor with line = (number of newlines in
    [text[0:caret_position]]) + 1 and column = [caret_position] minus the
    index of the last newline in [text[0:caret_position]] (-1 when there
    is none); both are at least 1, and the text "aaa\nbbbbb" with caret
    position 6 gives line 2 and column 3. *)
Theorem edit_line_column_within_text config tmp text caret_position st data :
  0 <= caret_position <= len text ->
  tempfile_written config tmp text st data ->
  let line := Z.of_nat (newlines_before text (Z.to_nat caret_position)) + 1 in
  let column :=
    caret_position - last_newline_before text (Z.to_nat caret_position) in
  caret_line text caret_position = line /\
  caret_column text caret_position = column /\
  edit config tmp text caret_position st =
    _start_editor config line column (file_created tmp text st data) /\
  1 <= line /\ 1 <= column /\
  caret_line ("aaa" +:+ newline +:+ "bbbbb") 6 = 2 /\
  caret_column ("aaa" +:+ newline +:+ "bbbbb") 6 = 3.
Proof.
  intros Hcp Htmp line column.
  assert (Hl : caret_line text caret_position = line)
    by (by apply caret_line_inside).
  assert (Hc : caret_column text caret_position = column)
    by (by apply caret_column_inside).
  pose proof (last_newline_before_bounds text (Z.to_nat caret_position)) as Hb.
  repeat split; try done.
  - rewrite <- Hl, <- Hc. by apply edit_creates.
  - subst line. lia.
  - subst column. lia.
Qed.

Lemma edit_line_column_within_text_witness :
  edit vim tmp_ok ("aaa" +:+ newline +:+ "bbbbb") 6 idle =
  _start_editor vim 2 3
    (file_created tmp_ok ("aaa" +:+ newline +:+ "bbbbb") idle
       ("aaa" +:+ newline +:+ "bbbbb")).
Proof.
  refine (proj1 (proj2 (proj2
    (edit_line_column_within_text vim tmp_ok ("aaa" +:+ newline +:+ "bbbbb") 6
       idle ("aaa" +:+ newline +:+ "bbbbb") _ _)))).
  - vm_compute. split; discriminate.
  - vm_compute. repeat split; reflexivity.
Defined.

(** C2.  While an edit is in progress, [edit] raises [ValueError] and
    changes nothing, but [edit_file] has no such guard: it returns
    normally, having replaced [_filename] and [_remove_file] and started
    another process. *)
Theorem edit_file_overwrites_edit_in_progress :
  _filename (self (edit vim tmp_ok "abc" 0 idle).2) =
    Some "/tmp/qutebrowser-editor-k3x9_a2b" /\
  _remove_file (self (edit vim tmp_ok "abc" 0 idle).2) = Some true /\
  edit vim tmp_ok "xyz" 0 (edit vim tmp_ok "abc" 0 idle).2 =
    (Raise (ValueError "Already editing a file!"),
     (edit vim tmp_ok "abc" 0 idle).2) /\
  (edit_file vim "/etc/hosts" (edit vim tmp_ok "abc" 0 idle).2).1 = Ok tt /\
  self (edit_file vim "/etc/hosts" (edit vim tmp_ok "abc" 0 idle).2).2 =
    {| _filename := Some "/etc/hosts";
       _proc := Some {| what := "editor"; exit_status := NormalExit |};
       _remove_file := Some false |} /\
  length (started
    (trace (edit_file vim "/etc/hosts" (edit vim tmp_ok "abc" 0 idle).2).2)) = 2%nat.
Proof. repeat split; vm_compute; reflexivity. Qed.

(** C3, as stated, fails: with the file name "/tmp/{line}.txt" the
    template "{file}" becomes "/tmp/4.txt" in the order of the source,
    and "/tmp/{line}.txt" when {line} is replaced before {file}. *)
Lemma substitution_order_matters :
  [ph_empty; ph_line; ph_file; ph_line0; ph_column; ph_column0]
    ≡ₚ source_order /\
  sub_placeholder "/tmp/{line}.txt" "{file}" 4 9 = "/tmp/4.txt" /\
  substitute_in_order
    [ph_empty; ph_line; ph_file; ph_line0; ph_column; ph_column0]
    "/tmp/{line}.txt" 4 9 "{file}" = "/tmp/{line}.txt" /\
  substitute_in_order
    [ph_empty; ph_line; ph_file; ph_line0; ph_column; ph_column0]
    "/tmp/{line}.txt" 4 9 "{file}" <>
  sub_placeholder "/tmp/{line}.txt" "{file}" 4 9.
Proof.
  split; [apply perm_skip, perm_swap|].
  split; [reflexivity|]. split; [reflexivity|]. discriminate.
Qed.

(** C3, amended.  [_sub_placeholder] is the literal replace-all of the six
    placeholders one after the other in the order {}, {file}, {line},
    {line0}, {column}, {column0}.  When neither the file name nor the text
    between the placeholders of the template has an opening brace, every
    order that replaces all six placeholders (in particular every
    permutation of the source's order) gives the result of the source,
    which is the template with every placeholder replaced by its value at
    once.  An argument in which no placeholder occurs is returned
    unchanged, and "{file}:{line}:{column}" with /tmp/x, 4 and 9 gives
    "/tmp/x:4:9". *)
Theorem sub_placeholder_sequential_literal filename line column arg :
  sub_placeholder filename arg line column =
    substitute_in_order source_order filename line column arg /\
  (forall pieces order,
     no_open_brace filename = true ->
     forallb plain pieces = true ->
     arg = render pieces ->
     (forall p, In p order) ->
     substitute_in_order order filename line column arg =
       sub_placeholder filename arg line column /\
     sub_placeholder filename arg line column =
       fill filename line column pieces) /\
  ((forall p, contains arg (token p) = false) ->
   sub_placeholder filename arg line column = arg) /\
  sub_placeholder "/tmp/x" "{file}:{line}:{column}" 4 9 = "/tmp/x:4:9".
Proof.
  split; [done|]. split; [|split; [|done]].
  - intros pieces order Hf Hp -> Hall.
    assert (Hsrc : sub_placeholder filename (render pieces) line column =
                   fill filename line column pieces).
    { change (sub_placeholder filename (render pieces) line column)
        with (substitute_in_order source_order filename line column
                (render pieces)).
      rewrite substitute_in_order_render by done.
      apply render_after. intros []; simpl; tauto. }
    split; [|done].
    rewrite Hsrc, substitute_in_order_render by done.
    by apply render_after.
  - intros Habsent. unfold sub_placeholder.
    rewrite (replace_token arg ph_empty), replace_from_absent
      by exact (Habsent ph_empty).
    rewrite (replace_token arg ph_file), replace_from_absent
      by exact (Habsent ph_file).
    rewrite (replace_token arg ph_line), replace_from_absent
      by exact (Habsent ph_line).
    rewrite (replace_token arg ph_line0), replace_from_absent
      by exact (Habsent ph_line0).
    rewrite (replace_token arg ph_column), replace_from_absent
      by exact (Habsent ph_column).
    rewrite (replace_token arg ph_column0), replace_from_absent
      by exact (Habsent ph_column0).
    done.
Qed.

Lemma sub_placeholder_sequential_literal_witness :
  substitute_in_order (rev source_order) "/tmp/x" 4 9 "{file}:{line}:{column}" =
    sub_placeholder "/tmp/x" "{file}:{line}:{column}" 4 9 /\
  sub_placeholder "/tmp/x" "--nofork" 4 9 = "--nofork".
Proof.
  split.
  - refine (proj1 (proj1 (proj2
      (sub_placeholder_sequential_literal "/tmp/x" 4 9 "{file}:{line}:{column}"))
      [Tok ph_file; Lit ":"; Tok ph_line; Lit ":"; Tok ph_column]
      (rev source_order) _ _ _ _)); try reflexivity.
    intros []; simpl; tauto.
  - refine (proj1 (proj2 (proj2
      (sub_placeholder_sequential_literal "/tmp/x" 4 9 "--nofork"))) _).
    intros []; reflexivity.
Defined.




(** C5.  In a cycle started by [edit], after the process has crashed the
    callbacks do nothing: [editing_finished] is not emitted and no file is
    removed, so the temporary file, which exists when the process is
    started, is left as the process left it. *)
Theorem crash_keeps_tempfile config tmp text caret_position st data
    executable templates files sigs :
  tempfile_written config tmp text st data ->
  editor_command config = executable :: templates ->
  forallb crash_signal sigs = true ->
  fs (edit config tmp text caret_position st).2 !! tmp_name tmp = Some data /\
  deliver_all config sigs
    (terminates files CrashExit (edit config tmp text caret_position st).2) =
    (Ok tt, terminates files CrashExit (edit config tmp text caret_position st).2) /\
  fs (terminates files CrashExit (edit config tmp text caret_position st).2) =
    files /\
  emitted (trace (terminates files CrashExit
                    (edit config tmp text caret_position st).2)) =
    emitted (trace st) /\
  removed (trace (terminates files CrashExit
                    (edit config tmp text caret_position st).2)) =
    removed (trace st).
Proof.
  intros Htmp Hcmd Hsigs.
  rewrite (edit_starts _ _ _ _ _ data executable templates) by done.
  pose proof (file_created_quiet tmp text st data) as (He & Hr & _).
  cbn [fst snd]. split; [cbn; apply lookup_insert_eq|]. split.
  - by apply (deliver_all_crashed _ _ _ (tmp_name tmp)
                {| what := "editor"; exit_status := CrashExit |}).
  - split; [done|]. cbn [editor_started terminates trace].
    rewrite emitted_app, removed_app, He, Hr. cbn.
    by rewrite !app_nil_r.
Qed.

Lemma crash_keeps_tempfile_witness :
  deliver_all vim [error Crashed; finished 11 CrashExit]
    (terminates (<[tmp_name tmp_ok := "half done"]> ∅) CrashExit
       (edit vim tmp_ok "abc" 3 idle).2) =
  (Ok tt, terminates (<[tmp_name tmp_ok := "half done"]> ∅) CrashExit
            (edit vim tmp_ok "abc" 3 idle).2).
Proof.
  refine (proj1 (proj2
    (crash_keeps_tempfile vim tmp_ok "abc" 3 idle "abc"
       "gvim" ["-f"; "{file}"; "-c"; "normal {line}G{column0}l"]
       (<[tmp_name tmp_ok := "half done"]> ∅)
       [error Crashed; finished 11 CrashExit] _ _ _))).
  - vm_compute. repeat split; reflexivity.
  - reflexivity.
  - reflexivity.
Defined.

(** C6.  In a cycle started by [edit], when the process ends normally
    with a non-zero exit code, [on_proc_closed] opens no file, does not
    emit [editing_finished], and calls [os.remove] on the temporary file,
    which is gone afterwards. *)
Theorem nonzero_exit_removes_tempfile config tmp text caret_position st data
    executable templates files exitcode :
  tempfile_written config tmp text st data ->
  editor_command config = executable :: templates ->
  exitcode <> 0 ->
  (on_proc_closed config exitcode NormalExit
     (terminates files NormalExit
        (edit config tmp text caret_position st).2)).1 = Ok tt /\
  opened (trace (on_proc_closed config exitcode NormalExit
     (terminates files NormalExit
        (edit config tmp text caret_position st).2)).2) = opened (trace st) /\
  emitted (trace (on_proc_closed config exitcode NormalExit
     (terminates files NormalExit
        (edit config tmp text caret_position st).2)).2) = emitted (trace st) /\
  removed (trace (on_proc_closed config exitcode NormalExit
     (terminates files NormalExit
        (edit config tmp text caret_position st).2)).2) =
    removed (trace st) ++ [tmp_name tmp] /\
  fs (on_proc_closed config exitcode NormalExit
     (terminates files NormalExit
        (edit config tmp text caret_position st).2)).2 =
    delete (tmp_name tmp) files /\
  fs (on_proc_closed config exitcode NormalExit
     (terminates files NormalExit
        (edit config tmp text caret_position st).2)).2 !! tmp_name tmp = None.
Proof.
  intros Htmp Hcmd Hcode.
  rewrite (edit_starts _ _ _ _ _ data executable templates) by done.
  pose proof (file_created_quiet tmp text st data) as (He & Hr & Ho & _).
  cbn [fst snd].
  rewrite on_proc_closed_normal, read_back_nonzero by done.
  cbn [fst snd]. rewrite record_nil.
  rewrite (cleanup_removes _ (tmp_name tmp)
             {| what := "editor"; exit_status := NormalExit |}) by done.
  cbn [editor_started terminates record trace fs self _filename fst snd].
  rewrite !opened_app, !emitted_app, !removed_app, He, Hr, Ho.
  repeat split; try apply lookup_delete_eq;
    destruct (files !! tmp_name tmp); cbn; by rewrite ?app_nil_r.
Qed.

Lemma nonzero_exit_removes_tempfile_witness :
  fs (on_proc_closed vim 1 NormalExit
     (terminates (<[tmp_name tmp_ok := "abc"]> ∅) NormalExit
        (edit vim tmp_ok "abc" 3 idle).2)).2 !! tmp_name tmp_ok = None.
Proof.
  refine (proj2 (proj2 (proj2 (proj2 (proj2
    (nonzero_exit_removes_tempfile vim tmp_ok "abc" 3 idle "abc"
       "gvim" ["-f"; "{file}"; "-c"; "normal {line}G{column0}l"]
       (<[tmp_name tmp_ok := "abc"]> ∅) 1 _ _ _)))))).
  - vm_compute. repeat split; reflexivity.
  - reflexivity.
  - discriminate.
Defined.




(** C8, as stated, fails: in a fresh session [_cleanup] fails its
    assertion. *)
Lemma cleanup_fresh_session_asserts :
  _filename (self idle) = None /\
  _cleanup idle = (Raise AssertionError, idle).
Proof. split; reflexivity. Qed.

(** C8, amended.  In a session state without a file of its own
    ([_filename] unset, or [_remove_file] false), [_cleanup] does nothing
    when [_remove_file] has been set: it returns normally and leaves the
    file system and the trace as they were.  When [_remove_file] was never
    set, it fails its assertion, also without touching anything. *)
Theorem cleanup_without_own_file st :
  _filename (self st) = None \/ _remove_file (self st) = Some false ->
  (_remove_file (self st) <> None -> _cleanup st = (Ok tt, st)) /\
  (_remove_file (self st) = None -> _cleanup st = (Raise AssertionError, st)) /\
  fs (_cleanup st).2 = fs st /\
  trace (_cleanup st).2 = trace st.
Proof.
  intros H.
  assert (Hset : _remove_file (self st) <> None -> _cleanup st = (Ok tt, st)).
  { intros Hr. destruct (_remove_file (self st)) as [remove_file|] eqn:E; [|done].
    apply (cleanup_nothing_to_do st remove_file E).
    destruct H as [H|H]; [by left | right; congruence]. }
  split; [done|]. split; [apply cleanup_unset|].
  destruct (_remove_file (self st)) eqn:E.
  - by rewrite Hset.
  - by rewrite cleanup_unset.
Qed.

Lemma cleanup_without_own_file_witness :
  _cleanup (edit_file vim "/etc/hosts" idle).2 =
  (Ok tt, (edit_file vim "/etc/hosts" idle).2).
Proof.
  refine (proj1 (cleanup_without_own_file (edit_file vim "/etc/hosts" idle).2 _) _).
  - right. reflexivity.
  - discriminate.
Defined.

(** C9.  For every file name given to [edit_file], every file system and
    exit status the process leaves behind, and every sequence of signals
    of the process, the session calls [os.remove] on no file and leaves
    the file system as the process left it: [_remove_file] is false from
    [edit_file] on, and [edit_file] itself does not touch the file
    system. *)
Theorem edit_file_never_deletes config filename st files status sigs :
  _remove_file (self (edit_file config filename st).2) = Some false /\
  fs (edit_file config filename st).2 = fs st /\
  removed (trace (edit_file config filename st).2) = removed (trace st) /\
  fs (deliver_all config sigs
        (terminates files status (edit_file config filename st).2)).2 = files /\
  removed (trace (deliver_all config sigs
        (terminates files status (edit_file config filename st).2)).2) =
    removed (trace st) /\
  forall content,
    files !! filename = Some content ->
    fs (deliver_all config sigs
          (terminates files status (edit_file config filename st).2)).2
      !! filename = Some content.
Proof.
  destruct (edit_file_not_owner config filename st) as (Hr & Hf & Ht).
  destruct (deliver_all_not_owner config sigs
              (terminates files status (edit_file config filename st).2))
    as [Hfs Hrm]; [done|].
  repeat split; try done.
  - by rewrite Hrm.
  - intros content Hc. by rewrite Hfs.
Qed.

Lemma edit_file_never_deletes_witness :
  fs (deliver_all vim [finished 0 NormalExit]
        (terminates (<["/etc/hosts" := "127.0.0.1 localhost"]> ∅) NormalExit
           (edit_file vim "/etc/hosts" idle).2)).2
    !! "/etc/hosts" = Some "127.0.0.1 localhost".
Proof.
  refine (proj2 (proj2 (proj2 (proj2 (proj2
    (edit_file_never_deletes vim "/etc/hosts" idle
       (<["/etc/hosts" := "127.0.0.1 localhost"]> ∅) NormalExit
       [finished 0 NormalExit])))))
    "127.0.0.1 localhost" _).
  vm_compute. reflexivity.
Defined.

(** C10.  For every text and every caret position beyond the end of the
    text, [edit] does not fail and starts the editor: the line is the one
    of the end of the text and the column is the caret position, not
    clamped, minus the index of the last newline of the whole text, so it
    exceeds the column of the end of the text by as much as the caret
    position exceeds the length; the text "ab" with caret position 5 gives
    line 1 and column 6. *)
Theorem edit_caret_beyond_text config tmp text caret_position st data
    executable templates :
  len text < caret_position ->
  tempfile_written config tmp text st data ->
  editor_command config = executable :: templates ->
  fst (edit config tmp text caret_position st) = Ok tt /\
  caret_line text caret_position = caret_line text (len text) /\
  caret_line text caret_position =
    Z.of_nat (newlines_before text (String.length text)) + 1 /\
  caret_column text caret_position =
    caret_position - last_newline_before text (String.length text) /\
  caret_column text caret_position =
    caret_column text (len text) + (caret_position - len text) /\
  caret_line "ab" 5 = 1 /\ caret_column "ab" 5 = 6 /\
  edit config tmp text caret_position st =
    _start_editor config
      (Z.of_nat (newlines_before text (String.length text)) + 1)
      (caret_position - last_newline_before text (String.length text))
      (file_created tmp text st data) /\
  started (trace (edit config tmp text caret_position st).2) =
    started (trace st) ++
    [(executable,
      map (fun arg =>
             sub_placeholder (tmp_name tmp) arg
               (Z.of_nat (newlines_before text (String.length text)) + 1)
               (caret_position -
                last_newline_before text (String.length text)))
        templates)].
Proof.
  intros Hcp Htmp Hcmd.
  assert (Hs : slice_to text caret_position = text)
    by (apply slice_to_beyond; lia).
  assert (He : slice_to text (len text) = text)
    by (apply slice_to_beyond; lia).
  assert (Hl : caret_line text caret_position =
               Z.of_nat (newlines_before text (String.length text)) + 1)
    by (unfold caret_line; by rewrite Hs, count_newline).
  assert (Hc : caret_column text caret_position =
               caret_position - last_newline_before text (String.length text))
    by (unfold caret_column; by rewrite Hs, rfind_newline).
  pose proof (file_created_quiet tmp text st data) as (_ & _ & _ & Hst).
  repeat split; try done.
  - rewrite (edit_creates _ _ _ _ _ data) by done.
    by rewrite (start_editor_run _ executable templates (tmp_name tmp)).
  - unfold caret_line. by rewrite Hs, He.
  - unfold caret_column. rewrite Hs, He. lia.
  - rewrite <- Hl, <- Hc. by apply edit_creates.
  - rewrite (edit_creates _ _ _ _ _ data) by done.
    rewrite (start_editor_run _ executable templates (tmp_name tmp)) by done.
    cbn [snd editor_started trace]. rewrite started_app, Hst, Hl, Hc. done.
Qed.

Lemma edit_caret_beyond_text_witness :
  started (trace (edit vim tmp_ok "ab" 5 idle).2) =
  [("gvim", ["-f"; "/tmp/qutebrowser-editor-k3x9_a2b"; "-c"; "normal 1G5l"])].
Proof.
  pose proof (edit_caret_beyond_text vim tmp_ok "ab" 5 idle "ab"
                "gvim" ["-f"; "{file}"; "-c"; "normal {line}G{column0}l"]) as H.
  destruct H as (_ & _ & _ & _ & _ & _ & _ & _ & H9).
  - vm_compute. reflexivity.
  - vm_compute. repeat split; reflexivity.
  - reflexivity.
  - exact H9.
Defined.

End Spec.

(** * Further properties of the class *)

(** ** Lemmas *)

Module MoreFacts.
Import Py PyFacts Editor CaretFacts EditorFacts CallbackFacts SubstFacts.

Lemma slice_to_negative s stop :
  stop < 0 -> slice_to s stop = take (Z.to_nat (Z.max (len s + stop) 0)) s.
Proof.
  intros H. unfold slice_to.
  by destruct (Z.ltb_spec stop 0) as [_|?]; [|lia].
Qed.

(** No newline lies between the last newline below [n] and [n]. *)
Lemma last_newline_before_last text n j :
  last_newline_before text n < Z.of_nat j < Z.of_nat n ->
  is_newline_at text j = false.
Proof.
  induction n as [|n IH]; intros H; [lia|].
  cbn [last_newline_before] in H.
  destruct (is_newline_at text n) eqn:E; [lia|].
  destruct (decide (j = n)) as [->|Hne]; [done|].
  apply IH. lia.
Qed.

Lemma last_newline_before_newline text n :
  0 <= last_newline_before text n ->
  is_newline_at text (Z.to_nat (last_newline_before text n)) = true.
Proof.
  induction n as [|n IH]; cbn [last_newline_before]; [lia|].
  destruct (is_newline_at text n) eqn:E; [|done].
  intros _. by rewrite Nat2Z.id.
Qed.

Lemma newlines_before_none text n :
  newlines_before text n = O <-> last_newline_before text n = -1.
Proof.
  induction n as [|n IH]; cbn [newlines_before last_newline_before]; [done|].
  destruct (is_newline_at text n); [split; lia|].
  rewrite Nat.add_0_r. exact IH.
Qed.

(** [_cleanup] and the callbacks never assign an attribute. *)
Lemma cleanup_self st : self (_cleanup st).2 = self st.
Proof. run. by repeat case_match; simplify_eq. Qed.

Lemma deliver_self config sig st : self (deliver config sig st).2 = self st.
Proof.
  destruct sig as [exitcode [] | err]; cbn [deliver].
  - rewrite on_proc_closed_normal.
    pose proof (cleanup_self (record (read_back config exitcode st).2 st)) as H.
    by destruct (_cleanup (record (read_back config exitcode st).2 st))
      as [[[]|e] st'].
  - by rewrite on_proc_closed_crash.
  - apply cleanup_self.
Qed.

Lemma deliver_all_self config sigs st :
  self (deliver_all config sigs st).2 = self st.
Proof.
  revert st; induction sigs as [|sig sigs IH]; intros st; [done|].
  cbn [deliver_all]. unfold bind.
  pose proof (deliver_self config sig st) as H.
  destruct (deliver config sig st) as [[[]|e] st']; cbn [snd] in *; [|done].
  by rewrite IH.
Qed.

(** [_cleanup] turns every [OSError] into a message. *)
Lemma cleanup_no_OSError st e : (_cleanup st).1 <> Raise (OSError e).
Proof. run. by repeat case_match; simplify_eq. Qed.

Lemma mapM_sub_placeholder_no_OSError line column templates st e :
  (mapM (fun arg => _sub_placeholder arg line column) templates st).1 <>
  Raise (OSError e).
Proof.
  destruct (_filename (self st)) as [filename|] eqn:Hf.
  - by rewrite (mapM_sub_placeholder filename).
  - destruct templates as [|arg templates]; [done|].
    cbn [mapM]. unfold bind, _sub_placeholder, bind, get_self. by rewrite Hf.
Qed.

Lemma start_editor_no_OSError config line column st e :
  (_start_editor config line column st).1 <> Raise (OSError e).
Proof.
  unfold _start_editor, bind at 1, set_proc, bind, get_self, set_self.
  cbn [fst snd self].
  destruct (editor_command config) as [|executable templates]; [done|].
  match goal with |- context [mapM ?f ?l ?s] =>
    pose proof (mapM_sub_placeholder_no_OSError line column l s e) as H;
    destruct (mapM f l s) as [[args|e'] st'] end;
    unfold effect; cbn [fst] in *; [intros [=] | intros [= ->]; by apply H].
Qed.

(** Text read through universal newlines has no carriage return. *)
Lemma no_cr_universal_newlines after_cr s :
  no_cr (universal_newlines after_cr s) = true.
Proof.
  revert after_cr; induction s as [|c s IH]; intros after_cr; [done|].
  cbn [universal_newlines].
  destruct (Ascii.eqb_spec c CR) as [->|Hcr]; [cbn; apply IH|].
  destruct (Ascii.eqb_spec c LF) as [->|Hlf].
  - destruct after_cr; [apply IH | cbn; apply IH].
  - cbn [no_cr]. rewrite IH.
    by destruct (Ascii.eqb_spec c CR).
Qed.

(** A string without an opening brace holds no placeholder. *)
Lemma contains_no_open_brace s p :
  no_open_brace s = true -> contains s (token p) = false.
Proof.
  destruct (token_shape p) as (tail & -> & _).
  induction s as [|c s IH]; intros H; [done|].
  cbn [no_open_brace] in H. apply andb_true_iff in H as [Hc H].
  apply negb_true_iff in Hc.
  cbn [contains startswith]. rewrite Ascii.eqb_sym, Hc. cbn [andb orb].
  by apply IH.
Qed.

Lemma no_open_brace_fill filename line column pieces :
  no_open_brace filename = true ->
  forallb plain pieces = true ->
  no_open_brace (fill filename line column pieces) = true.
Proof.
  intros Hf. induction pieces as [|[s|q] pieces IH]; intros H; [done| |];
    cbn [forallb] in H; apply andb_true_iff in H as [Hs H];
    cbn [fill]; rewrite no_open_brace_app, IH by done.
  - cbn [plain] in Hs. by rewrite Hs.
  - by rewrite no_open_brace_value.
Qed.

Lemma sub_placeholder_fill filename line column pieces :
  no_open_brace filename = true ->
  forallb plain pieces = true ->
  sub_placeholder filename (render pieces) line column =
  fill filename line column pieces.
Proof.
  intros Hf Hp.
  change (sub_placeholder filename (render pieces) line column)
    with (substitute_in_order source_order filename line column (render pieces)).
  rewrite substitute_in_order_render by done.
  apply render_after. intros []; simpl; tauto.
Qed.

Lemma sub_placeholder_absent filename line column arg :
  (forall p, contains arg (token p) = false) ->
  sub_placeholder filename arg line column = arg.
Proof.
  intros Habsent. unfold sub_placeholder.
  rewrite (replace_token arg ph_empty), replace_from_absent
    by exact (Habsent ph_empty).
  rewrite (replace_token arg ph_file), replace_from_absent
    by exact (Habsent ph_file).
  rewrite (replace_token arg ph_line), replace_from_absent
    by exact (Habsent ph_line).
  rewrite (replace_token arg ph_line0), replace_from_absent
    by exact (Habsent ph_line0).
  rewrite (replace_token arg ph_column), replace_from_absent
    by exact (Habsent ph_column).
  rewrite (replace_token arg ph_column0), replace_from_absent
    by exact (Habsent ph_column0).
  done.
Qed.

(** What [on_proc_closed] emits after a normal exit is what its [try]
    block emits. *)
Lemma on_proc_closed_emitted config exitcode st :
  emitted (trace (on_proc_closed config exitcode NormalExit st).2) =
  emitted (trace st) ++ emitted (read_back config exitcode st).2.
Proof.
  rewrite on_proc_closed_normal.
  pose proof (cleanup_quiet (record (read_back config exitcode st).2 st))
    as (He & _).
  destruct (_cleanup (record (read_back config exitcode st).2 st))
    as [[[]|e] st']; cbn [fst snd] in *; rewrite He; cbn [record trace];
    apply emitted_app.
Qed.

(** The outcome of the handler of [edit] is never an [OSError]. *)
Lemma try_except_OSError_caught {A} (body : M A) (handler : os_error -> M A) st e :
  (forall e' st', (handler e' st').1 <> Raise (OSError e)) ->
  (try_except_OSError body handler st).1 <> Raise (OSError e).
Proof.
  intros Hh. unfold try_except_OSError.
  destruct (body st) as [[a|[]] st']; done.
Qed.

Lemma take_empty n : take n "" = "".
Proof. by destruct n. Qed.

Lemma caret_empty_text caret_position :
  caret_line "" caret_position = 1 /\
  caret_column "" caret_position = caret_position + 1.
Proof.
  unfold caret_line, caret_column, slice_to. rewrite take_empty.
  split; [done | cbn; lia].
Qed.

Lemma map_sub_placeholder_fill filename line column templates :
  no_open_brace filename = true ->
  forallb (forallb plain) templates = true ->
  map (fun arg => sub_placeholder filename arg line column)
    (map render templates) =
  map (fill filename line column) templates.
Proof.
  intros Hf. induction templates as [|pieces templates IH]; intros H; [done|].
  cbn [forallb] in H. apply andb_true_iff in H as [Hp H].
  cbn [map]. by rewrite sub_placeholder_fill, IH.
Qed.

Lemma no_open_brace_tmp_name tmp :
  no_open_brace (tmp_dir tmp) = true ->
  no_open_brace (tmp_random tmp) = true ->
  no_open_brace (tmp_name tmp) = true.
Proof.
  intros Hd Hr. unfold tmp_name.
  by rewrite !no_open_brace_app, Hd, Hr.
Qed.

Lemma newlines_before_mono text n m :
  (n <= m)%nat -> (newlines_before text n <= newlines_before text m)%nat.
Proof.
  induction 1 as [|m Hle IH]; [done|].
  cbn [newlines_before]. lia.
Qed.

(** [_cleanup] touches no file but the one named by [_filename]. *)
Lemma cleanup_frame st path :
  _filename (self st) <> Some path ->
  fs (_cleanup st).2 !! path = fs st !! path.
Proof.
  intros Hne. run. repeat case_match; simplify_eq; cbn; try done.
  apply lookup_delete_ne. congruence.
Qed.

Lemma mapM_sub_placeholder_state line column templates st :
  (mapM (fun arg => _sub_placeholder arg line column) templates st).2 = st.
Proof.
  destruct (_filename (self st)) as [filename|] eqn:Hf.
  - by rewrite (mapM_sub_placeholder filename).
  - destruct templates as [|arg templates]; [done|].
    cbn [mapM]. unfold bind, _sub_placeholder, bind, get_self. by rewrite Hf.
Qed.

(** [_start_editor] does not touch the file system. *)
Lemma start_editor_fs config line column st :
  fs (_start_editor config line column st).2 = fs st.
Proof.
  unfold _start_editor, bind at 1, set_proc, bind, get_self, set_self.
  cbn [fst snd self].
  destruct (editor_command config) as [|executable templates]; [done|].
  match goal with |- context [mapM ?f ?l ?s] =>
    pose proof (mapM_sub_placeholder_state line column l s) as H;
    destruct (mapM f l s) as [[args|e'] st'] end;
    cbn [snd] in H; by subst st'.
Qed.

End MoreFacts.

(** ** Properties *)

Module Extra.
Import Py PyFacts Editor CaretFacts EditorFacts CallbackFacts SubstFacts MoreFacts.

(** X1.  A negative caret position counts from the end of the text: the
    line is that of the position [len(text) + caret_position] (0 when that
    is negative), but the column is the negative [caret_position] itself
    minus the index of the last newline before that position, so it is
    never positive. *)
Theorem caret_negative_position text caret_position :
  caret_position < 0 ->
  caret_line text caret_position =
    Z.of_nat (newlines_before text
                (Z.to_nat (Z.max (len text + caret_position) 0))) + 1 /\
  caret_column text caret_position =
    caret_position -
    last_newline_before text (Z.to_nat (Z.max (len text + caret_position) 0)) /\
  1 <= caret_line text caret_position /\
  caret_column text caret_position <= 0.
Proof.
  intros H. unfold caret_line, caret_column.
  rewrite slice_to_negative, count_newline, rfind_newline by done.
  set (n := Z.to_nat (Z.max (len text + caret_position) 0)).
  assert (Hn : (n <= String.length text)%nat) by (unfold len in *; lia).
  rewrite length_take, newlines_before_take, last_newline_before_take by done.
  pose proof (last_newline_before_bounds text n).
  repeat split; lia.
Qed.

Lemma caret_negative_position_witness :
  caret_line ("a" +:+ newline +:+ "bc") (-1) = 2 /\
  caret_column ("a" +:+ newline +:+ "bc") (-1) <= 0.
Proof.
  pose proof (caret_negative_position ("a" +:+ newline +:+ "bc") (-1)) as H.
  destruct H as (H1 & _ & _ & H4); [reflexivity|].
  split; [exact H1 | exact H4].
Defined.

(** X2.  The caret arithmetic of [edit] follows the caret through the text:
    at position 0 the line and the column are 1; moving the caret over a
    newline adds 1 to the line and sets the column to 1; moving it over any
    other character keeps the line and adds 1 to the column. *)
Theorem caret_moves_right text caret_position :
  0 <= caret_position < len text ->
  caret_line text 0 = 1 /\
  caret_column text 0 = 1 /\
  (is_newline_at text (Z.to_nat caret_position) = true ->
   caret_line text (caret_position + 1) = caret_line text caret_position + 1 /\
   caret_column text (caret_position + 1) = 1) /\
  (is_newline_at text (Z.to_nat caret_position) = false ->
   caret_line text (caret_position + 1) = caret_line text caret_position /\
   caret_column text (caret_position + 1) = caret_column text caret_position + 1).
Proof.
  intros H.
  rewrite (caret_line_inside text 0), (caret_column_inside text 0)
    by (unfold len in *; lia).
  rewrite (caret_line_inside text caret_position),
    (caret_column_inside text caret_position) by lia.
  rewrite (caret_line_inside text (caret_position + 1)),
    (caret_column_inside text (caret_position + 1)) by lia.
  replace (Z.to_nat (caret_position + 1)) with (S (Z.to_nat caret_position))
    by lia.
  cbn [Z.to_nat newlines_before last_newline_before].
  split; [done|]. split; [done|].
  split; intros Hnl; rewrite Hnl; lia.
Qed.

Lemma caret_moves_right_witness :
  caret_line ("ab" +:+ newline +:+ "c") 3 = caret_line ("ab" +:+ newline +:+ "c") 2 + 1 /\
  caret_column ("ab" +:+ newline +:+ "c") 3 = 1.
Proof.
  refine (proj1 (proj2 (proj2
    (caret_moves_right ("ab" +:+ newline +:+ "c") 2 _))) _).
  - vm_compute. split; [discriminate | reflexivity].
  - reflexivity.
Defined.

(** X3.  For a caret within the text, the [column - 1] characters before
    the caret hold no newline and the character before them, if there is
    one, is a newline; the line is 1 exactly when the column is the caret
    position plus 1. *)
Theorem caret_column_counts_from_line_start text caret_position :
  0 <= caret_position <= len text ->
  (forall j,
     caret_position - caret_column text caret_position < j < caret_position ->
     is_newline_at text (Z.to_nat j) = false) /\
  (caret_column text caret_position <= caret_position ->
   is_newline_at text
     (Z.to_nat (caret_position - caret_column text caret_position)) = true) /\
  (caret_line text caret_position = 1 <->
   caret_column text caret_position = caret_position + 1).
Proof.
  intros H.
  rewrite caret_line_inside, caret_column_inside by done.
  set (n := Z.to_nat caret_position).
  pose proof (last_newline_before_bounds text n) as Hb.
  replace (caret_position - (caret_position - last_newline_before text n))
    with (last_newline_before text n) by lia.
  split; [|split].
  - intros j Hj. apply (last_newline_before_last text n). lia.
  - intros Hc. apply last_newline_before_newline. lia.
  - pose proof (newlines_before_none text n) as Hn. lia.
Qed.

Lemma caret_column_counts_from_line_start_witness :
  caret_line "hello" 3 = 1 <-> caret_column "hello" 3 = 3 + 1.
Proof.
  refine (proj2 (proj2 (caret_column_counts_from_line_start "hello" 3 _))).
  vm_compute. split; discriminate.
Defined.

(** X4.  When the process of a session that owns its file ends normally
    with exit code 0 and the file can be read and decoded, [on_proc_closed]
    emits [editing_finished] with the content of the file as it is then (read
    with universal newlines), and afterwards removes the file. *)
Theorem closed_emits_edited_text config st name proc data text :
  _filename (self st) = Some name ->
  _remove_file (self st) = Some true ->
  _proc (self st) = Some proc ->
  exit_status proc = NormalExit ->
  fs st !! name = Some data ->
  decode (editor_encoding config) data = Some text ->
  on_proc_closed config 0 NormalExit st =
  (Ok tt,
   {| self := self st;
      fs := delete name (fs st);
      trace := trace st ++ [sys_open name;
                            editing_finished (universal_newlines false text);
                            sys_remove name] |}).
Proof.
  intros Hf Hr Hp Hs Hfile Hdec.
  rewrite on_proc_closed_normal.
  rewrite (read_back_unmodified _ _ name data text) by done. cbn [fst snd].
  rewrite (cleanup_removes _ name proc) by done.
  cbn [record fs trace self]. rewrite Hfile. by rewrite <- app_assoc.
Qed.

Lemma closed_emits_edited_text_witness :
  emitted (trace (on_proc_closed vim 0 NormalExit
     (terminates (<[tmp_name tmp_ok := "edited" +:+ crlf]> ∅) NormalExit
        (edit vim tmp_ok "abc" 0 idle).2)).2) = ["edited" +:+ newline].
Proof.
  rewrite (closed_emits_edited_text vim _ (tmp_name tmp_ok)
             {| what := "editor"; exit_status := NormalExit |}
             ("edited" +:+ crlf) ("edited" +:+ crlf));
    vm_compute; reflexivity.
Defined.

(** X5.  When the file is gone at a normal exit with code 0, nothing is
    emitted and nothing is raised: the user is told that the file could not
    be read back, [_cleanup] still calls [os.remove], and the user is told
    that the file could not be deleted. *)
Theorem closed_file_missing config st name proc :
  _filename (self st) = Some name ->
  _remove_file (self st) = Some true ->
  _proc (self st) = Some proc ->
  exit_status proc = NormalExit ->
  fs st !! name = None ->
  on_proc_closed config 0 NormalExit st =
  (Ok tt,
   {| self := self st;
      fs := fs st;
      trace := trace st ++
        [sys_open name;
         message_error ("Failed to read back edited file: " +:+
                        os_error_str (FileNotFoundError name));
         sys_remove name;
         message_error ("Failed to delete tempfile... (" +:+
                        os_error_str (FileNotFoundError name) +:+ ")")] |}).
Proof.
  intros Hf Hr Hp Hs Hfile.
  rewrite on_proc_closed_normal.
  unfold read_back. cbn [Z.eqb negb]. rewrite Hf, Hfile. cbn [fst snd].
  rewrite (cleanup_removes _ name proc) by done.
  cbn [record fs trace self]. rewrite Hfile, delete_id by done.
  by rewrite <- app_assoc.
Qed.

Lemma closed_file_missing_witness :
  emitted (trace (on_proc_closed vim 0 NormalExit
     (terminates ∅ NormalExit (edit vim tmp_ok "abc" 0 idle).2)).2) = [] /\
  (on_proc_closed vim 0 NormalExit
     (terminates ∅ NormalExit (edit vim tmp_ok "abc" 0 idle).2)).1 = Ok tt.
Proof.
  rewrite (closed_file_missing vim _ (tmp_name tmp_ok)
             {| what := "editor"; exit_status := NormalExit |});
    try (vm_compute; reflexivity).
  split; vm_compute; reflexivity.
Defined.

(** X6.  When the content of the file cannot be decoded at a normal exit
    with code 0, the [UnicodeDecodeError] leaves [on_proc_closed], nothing is
    emitted and the user is told nothing, and the [finally] clause has
    removed the file all the same. *)
Theorem closed_undecodable_file_removed config st name proc data :
  _filename (self st) = Some name ->
  _remove_file (self st) = Some true ->
  _proc (self st) = Some proc ->
  exit_status proc = NormalExit ->
  fs st !! name = Some data ->
  decode (editor_encoding config) data = None ->
  on_proc_closed config 0 NormalExit st =
  (Raise UnicodeDecodeError,
   {| self := self st;
      fs := delete name (fs st);
      trace := trace st ++ [sys_open name; sys_remove name] |}).
Proof.
  intros Hf Hr Hp Hs Hfile Hdec.
  rewrite on_proc_closed_normal.
  unfold read_back. cbn [Z.eqb negb]. rewrite Hf, Hfile, Hdec. cbn [fst snd].
  rewrite (cleanup_removes _ name proc) by done.
  cbn [record fs trace self]. rewrite Hfile. by rewrite <- app_assoc.
Qed.

Lemma closed_undecodable_file_removed_witness :
  (on_proc_closed vim_ascii 0 NormalExit
     (terminates (<[tmp_name tmp_ok := "caf" +:+ e_acute]> ∅) NormalExit
        (edit vim_ascii tmp_ok "abc" 0 idle).2)).1 = Raise UnicodeDecodeError /\
  fs (on_proc_closed vim_ascii 0 NormalExit
     (terminates (<[tmp_name tmp_ok := "caf" +:+ e_acute]> ∅) NormalExit
        (edit vim_ascii tmp_ok "abc" 0 idle).2)).2 !! tmp_name tmp_ok = None.
Proof.
  rewrite (closed_undecodable_file_removed vim_ascii _ (tmp_name tmp_ok)
             {| what := "editor"; exit_status := NormalExit |}
             ("caf" +:+ e_acute)); try (vm_compute; reflexivity).
  split; vm_compute; reflexivity.
Defined.

(** X7.  When the process of a session that owns its file reports an error
    without having crashed (it could not be started, say), [on_proc_error]
    removes the file and emits nothing; it returns normally whether or not
    the file is still there. *)
Theorem error_without_crash_removes_file st name proc err :
  _filename (self st) = Some name ->
  _remove_file (self st) = Some true ->
  _proc (self st) = Some proc ->
  exit_status proc = NormalExit ->
  (on_proc_error err st).1 = Ok tt /\
  fs (on_proc_error err st).2 = delete name (fs st) /\
  fs (on_proc_error err st).2 !! name = None /\
  removed (trace (on_proc_error err st).2) = removed (trace st) ++ [name] /\
  emitted (trace (on_proc_error err st).2) = emitted (trace st).
Proof.
  intros Hf Hr Hp Hs. unfold on_proc_error.
  rewrite (cleanup_removes _ name proc) by done. cbn [fst snd fs trace].
  rewrite removed_app, emitted_app.
  repeat split; try apply lookup_delete_eq;
    destruct (fs st !! name); cbn; by rewrite ?app_nil_r.
Qed.

Lemma error_without_crash_removes_file_witness :
  fs (on_proc_error FailedToStart (edit vim tmp_ok "abc" 0 idle).2).2
    !! tmp_name tmp_ok = None.
Proof.
  refine (proj1 (proj2 (proj2
    (error_without_crash_removes_file (edit vim tmp_ok "abc" 0 idle).2
       (tmp_name tmp_ok) {| what := "editor"; exit_status := NormalExit |}
       FailedToStart _ _ _ _)))); reflexivity.
Defined.

(** X8.  An error signal without a crash followed by a normal exit with
    code 0: the first [_cleanup] has removed the file, so the text cannot be
    read back and nothing is emitted; the second [_cleanup] finds no file,
    which is reported and not raised. *)
Theorem error_then_closed_loses_text config st name proc data err :
  _filename (self st) = Some name ->
  _remove_file (self st) = Some true ->
  _proc (self st) = Some proc ->
  exit_status proc = NormalExit ->
  fs st !! name = Some data ->
  deliver_all config [error err; finished 0 NormalExit] st =
  (Ok tt,
   {| self := self st;
      fs := delete name (fs st);
      trace := trace st ++
        [sys_remove name;
         sys_open name;
         message_error ("Failed to read back edited file: " +:+
                        os_error_str (FileNotFoundError name));
         sys_remove name;
         message_error ("Failed to delete tempfile... (" +:+
                        os_error_str (FileNotFoundError name) +:+ ")")] |}).
Proof.
  intros Hf Hr Hp Hs Hfile.
  cbn [deliver_all deliver]. unfold bind at 1, on_proc_error.
  rewrite (cleanup_removes _ name proc) by done. rewrite Hfile.
  unfold bind. rewrite on_proc_closed_normal.
  unfold read_back. cbn [Z.eqb negb self fs trace].
  rewrite Hf, lookup_delete_eq. cbn [fst snd].
  rewrite (cleanup_removes _ name proc) by done.
  cbn [record fs trace self]. rewrite lookup_delete_eq.
  rewrite delete_id by apply lookup_delete_eq.
  unfold ret. by rewrite <- !app_assoc.
Qed.

Lemma error_then_closed_loses_text_witness :
  emitted (trace (deliver_all vim [error ReadError; finished 0 NormalExit]
     (edit vim tmp_ok "abc" 0 idle).2).2) = [].
Proof.
  rewrite (error_then_closed_loses_text vim _ (tmp_name tmp_ok)
             {| what := "editor"; exit_status := NormalExit |} "abc");
    vm_compute; reflexivity.
Defined.

(** X9.  No callback assigns an attribute, so [_filename] is never reset:
    once a file name is set, after whatever signals have been delivered,
    [edit] on the same session raises [ValueError] and changes nothing. *)
Theorem session_is_single_use config sigs st name tmp text caret_position :
  _filename (self st) = Some name ->
  self (deliver_all config sigs st).2 = self st /\
  edit config tmp text caret_position (deliver_all config sigs st).2 =
  (Raise (ValueError "Already editing a file!"), (deliver_all config sigs st).2).
Proof.
  intros Hf. pose proof (deliver_all_self config sigs st) as Hs.
  split; [done|]. apply (edit_guard _ _ _ _ _ name). by rewrite Hs.
Qed.

Lemma session_is_single_use_witness :
  edit vim tmp_ok "second" 0
    (deliver_all vim [finished 0 NormalExit] (edit vim tmp_ok "first" 0 idle).2).2 =
  (Raise (ValueError "Already editing a file!"),
   (deliver_all vim [finished 0 NormalExit] (edit vim tmp_ok "first" 0 idle).2).2).
Proof.
  refine (proj2 (session_is_single_use vim [finished 0 NormalExit]
                   (edit vim tmp_ok "first" 0 idle).2 (tmp_name tmp_ok)
                   tmp_ok "second" 0 _)).
  reflexivity.
Defined.

(** X10.  No [OSError] leaves the class: in every state, whatever the
    operating system answers, neither a callback nor [edit] nor [edit_file]
    raises one. *)
Theorem no_OSError_escapes config st e :
  (forall sig, (deliver config sig st).1 <> Raise (OSError e)) /\
  (forall tmp text caret_position,
     (edit config tmp text caret_position st).1 <> Raise (OSError e)) /\
  (forall filename, (edit_file config filename st).1 <> Raise (OSError e)).
Proof.
  split; [|split].
  - intros [exitcode [] | err]; cbn [deliver].
    + rewrite on_proc_closed_normal.
      pose proof (cleanup_no_OSError
                    (record (read_back config exitcode st).2 st) e) as H.
      destruct (_cleanup (record (read_back config exitcode st).2 st))
        as [[[]|e'] st']; cbn [fst] in *; [|done].
      unfold read_back. by repeat case_match.
    + by rewrite on_proc_closed_crash.
    + apply cleanup_no_OSError.
  - intros tmp text caret_position. unfold edit, bind at 1, get_self.
    destruct (_filename (self st)); [done|]. unfold bind at 1.
    match goal with |- context [try_except_OSError ?b ?h st] =>
      pose proof (try_except_OSError_caught b h st e) as H;
      destruct (try_except_OSError b h st) as [[created|e'] st'] end.
    + destruct created; [|done].
      unfold bind, set_remove_file, bind, get_self, set_self. cbn [fst snd].
      apply start_editor_no_OSError.
    + cbn [fst] in *. intros [= ->]. apply H; [|done].
      intros e'' st''. by unfold bind, effect, ret.
  - intros filename.
    unfold edit_file, bind, set_filename, set_remove_file, bind, get_self,
      set_self. cbn [fst snd].
    apply start_editor_no_OSError.
Qed.

(** X11.  A text emitted by [on_proc_closed] holds no carriage return. *)
Theorem emitted_text_has_no_carriage_return config exitcode exitstatus st :
  exists texts,
    emitted (trace (on_proc_closed config exitcode exitstatus st).2) =
      emitted (trace st) ++ texts /\
    Forall (fun text => no_cr text = true) texts.
Proof.
  destruct exitstatus.
  - exists (emitted (read_back config exitcode st).2).
    split; [apply on_proc_closed_emitted|].
    unfold read_back. repeat case_match; cbn; repeat constructor.
    apply no_cr_universal_newlines.
  - exists []. rewrite on_proc_closed_crash. cbn.
    split; [by rewrite app_nil_r | constructor].
Qed.

(** X12.  [on_proc_closed] emits [editing_finished] exactly when the exit
    is normal, the exit code is 0, a file name is set, the file exists and
    its content can be decoded; it then emits once, with that content read
    with universal newlines.  Whether the session owns the file and what
    [_cleanup] does afterwards play no role. *)
Theorem closed_emits_iff_read_back config exitcode exitstatus st :
  (exists name data text,
     exitstatus = NormalExit /\ exitcode = 0 /\
     _filename (self st) = Some name /\
     fs st !! name = Some data /\
     decode (editor_encoding config) data = Some text /\
     emitted (trace (on_proc_closed config exitcode exitstatus st).2) =
       emitted (trace st) ++ [universal_newlines false text]) \/
  (~ (exists name data text,
        exitstatus = NormalExit /\ exitcode = 0 /\
        _filename (self st) = Some name /\
        fs st !! name = Some data /\
        decode (editor_encoding config) data = Some text) /\
   emitted (trace (on_proc_closed config exitcode exitstatus st).2) =
     emitted (trace st)).
Proof.
  destruct exitstatus.
  - rewrite on_proc_closed_emitted. unfold read_back.
    destruct (Z.eqb_spec exitcode 0) as [->|Hne]; cbn [negb].
    + destruct (_filename (self st)) as [name|] eqn:Hf.
      * destruct (fs st !! name) as [data|] eqn:Hd.
        -- destruct (decode (editor_encoding config) data) as [text|] eqn:He.
           ++ left. by exists name, data, text.
           ++ right. cbn. rewrite app_nil_r. split; [|done].
              intros (n & d & t & _ & _ & ? & ? & ?). congruence.
        -- right. cbn. rewrite app_nil_r. split; [|done].
           intros (n & d & t & _ & _ & ? & ? & ?). congruence.
      * right. cbn. rewrite app_nil_r. split; [|done].
        intros (n & d & t & _ & _ & ? & ? & ?). congruence.
    + right. cbn. rewrite app_nil_r. split; [|done].
      intros (n & d & t & _ & ? & _). congruence.
  - right. rewrite on_proc_closed_crash. split; [|done].
    intros (n & d & t & ? & _). congruence.
Qed.

(** X13.  With an empty editor command, [edit] raises [IndexError] in
    [_start_editor], after the temporary file has been written and the
    attributes have been set: no process is started and the file stays on
    disk. *)
Theorem edit_with_empty_command config tmp text caret_position st data :
  tempfile_written config tmp text st data ->
  editor_command config = [] ->
  (edit config tmp text caret_position st).1 = Raise IndexError /\
  self (edit config tmp text caret_position st).2 =
    {| _filename := Some (tmp_name tmp);
       _proc := Some {| what := "editor"; exit_status := NormalExit |};
       _remove_file := Some true |} /\
  fs (edit config tmp text caret_position st).2 !! tmp_name tmp = Some data /\
  started (trace (edit config tmp text caret_position st).2) =
    started (trace st).
Proof.
  intros Htmp Hcmd. rewrite (edit_creates _ _ _ _ _ data) by done.
  pose proof (file_created_quiet tmp text st data) as (_ & _ & _ & Hst).
  unfold _start_editor. rewrite Hcmd.
  unfold bind, set_proc, bind, get_self, set_self, raise. cbn [fst snd self fs trace].
  repeat split; try done. cbn. apply lookup_insert_eq.
Qed.

Lemma edit_with_empty_command_witness :
  (edit no_command tmp_ok "abc" 0 idle).1 = Raise IndexError /\
  fs (edit no_command tmp_ok "abc" 0 idle).2 !! tmp_name tmp_ok = Some "abc".
Proof.
  pose proof (edit_with_empty_command no_command tmp_ok "abc" 0 idle "abc") as H.
  destruct H as (H1 & _ & H3 & _).
  - vm_compute. repeat split; reflexivity.
  - reflexivity.
  - split; [exact H1 | exact H3].
Defined.

(** X14.  When the configured encoding cannot encode the text, the
    [UnicodeEncodeError] of [fobj.write] leaves [edit]: it is not an
    [OSError], so the user is told nothing, the attributes stay as they
    were, no process is started, and the empty file that was created stays
    on disk. *)
Theorem edit_unencodable_text config tmp text caret_position st :
  _filename (self st) = None ->
  tmp_create tmp = None ->
  fs st !! tmp_name tmp = None ->
  String.eqb text "" = false ->
  encode (editor_encoding config) (translate_write (linesep config) text) = None ->
  edit config tmp text caret_position st =
  (Raise UnicodeEncodeError,
   {| self := self st;
      fs := <[tmp_name tmp := ""]> (fs st);
      trace := trace st ++ [sys_mkstemp (tmp_name tmp)] |}).
Proof.
  intros Hf Hc Hfresh Ht He.
  unfold edit, bind at 1, get_self. rewrite Hf.
  unfold bind at 1, try_except_OSError, NamedTemporaryFile.
  unfold fobj_write, effect, record, get_fs, set_fs, raise, ret, bind.
  rewrite Hc. cbn [fst snd fs self trace]. rewrite Hfresh, Ht. cbn.
  by rewrite He.
Qed.

Lemma edit_unencodable_text_witness :
  (edit vim_ascii tmp_ok ("caf" +:+ e_acute) 0 idle).1 = Raise UnicodeEncodeError /\
  fs (edit vim_ascii tmp_ok ("caf" +:+ e_acute) 0 idle).2 !! tmp_name tmp_ok =
    Some "".
Proof.
  rewrite (edit_unencodable_text vim_ascii tmp_ok ("caf" +:+ e_acute) 0 idle);
    try reflexivity.
  split; vm_compute; reflexivity.
Defined.

(** X15.  For the empty text nothing is written to the temporary file, so
    neither the encoding nor an error of [fobj.write] matters: the file is
    created empty and the editor is started with line 1 and column
    [caret_position + 1], whatever the caret position is. *)
Theorem edit_empty_text config tmp caret_position st executable templates :
  _filename (self st) = None ->
  tmp_create tmp = None ->
  fs st !! tmp_name tmp = None ->
  tmp_close tmp = None ->
  editor_command config = executable :: templates ->
  edit config tmp "" caret_position st =
  (Ok tt,
   {| self := {| _filename := Some (tmp_name tmp);
                 _proc := Some {| what := "editor"; exit_status := NormalExit |};
                 _remove_file := Some true |};
      fs := <[tmp_name tmp := ""]> (fs st);
      trace := trace st ++
        [sys_mkstemp (tmp_name tmp);
         proc_start executable
           (map (fun arg => sub_placeholder (tmp_name tmp) arg 1
                              (caret_position + 1)) templates)] |}).
Proof.
  intros Hf Hc Hfresh Hclose Hcmd.
  rewrite (edit_starts config tmp "" caret_position st "" executable templates)
    by done.
  destruct (caret_empty_text caret_position) as [-> ->].
  unfold editor_started, file_created. cbn. by rewrite <- app_assoc.
Qed.

Lemma edit_empty_text_witness :
  started (trace (edit vim_ascii tmp_disk_full "" 7 idle).2) =
  [("gvim", ["-f"; "/tmp/qutebrowser-editor-k3x9_a2b"; "-c"; "normal 1G7l"])].
Proof.
  rewrite (edit_empty_text vim_ascii tmp_disk_full 7 idle
             "gvim" ["-f"; "{file}"; "-c"; "normal {line}G{column0}l"]);
    reflexivity.
Defined.

(** X16.  [on_proc_closed] reads back and emits for a file given to
    [edit_file] as well: with [_remove_file] false, a normal exit with code 0
    emits the content of the file and leaves the file where it is. *)
Theorem closed_after_edit_file_emits config st name data text :
  _filename (self st) = Some name ->
  _remove_file (self st) = Some false ->
  fs st !! name = Some data ->
  decode (editor_encoding config) data = Some text ->
  on_proc_closed config 0 NormalExit st =
  (Ok tt,
   {| self := self st;
      fs := fs st;
      trace := trace st ++ [sys_open name;
                            editing_finished (universal_newlines false text)] |}).
Proof.
  intros Hf Hr Hfile Hdec.
  rewrite on_proc_closed_normal.
  rewrite (read_back_unmodified _ _ name data text) by done. cbn [fst snd].
  by rewrite (cleanup_nothing_to_do _ false) by (by auto).
Qed.

Lemma closed_after_edit_file_emits_witness :
  emitted (trace (on_proc_closed vim 0 NormalExit
     (terminates (<["/etc/hosts" := "127.0.0.1 localhost"]> ∅) NormalExit
        (edit_file vim "/etc/hosts" idle).2)).2) = ["127.0.0.1 localhost"].
Proof.
  rewrite (closed_after_edit_file_emits vim _ "/etc/hosts"
             "127.0.0.1 localhost" "127.0.0.1 localhost");
    vm_compute; reflexivity.
Defined.

(** X17.  [edit_file] starts one process.  The executable is the first
    element of the command as it is; when neither the file name nor the text
    between the placeholders of the argument templates has an opening brace,
    each argument is its template with {} and {file} replaced by the file
    name, {line} and {column} by 1 and {line0} and {column0} by 0. *)
Theorem edit_file_starts_editor config filename st executable templates :
  editor_command config = executable :: map render templates ->
  no_open_brace filename = true ->
  forallb (forallb plain) templates = true ->
  (edit_file config filename st).1 = Ok tt /\
  started (trace (edit_file config filename st).2) =
    started (trace st) ++ [(executable, map (fill filename 1 1) templates)] /\
  value filename 1 1 ph_line = "1" /\ value filename 1 1 ph_line0 = "0" /\
  value filename 1 1 ph_column = "1" /\ value filename 1 1 ph_column0 = "0".
Proof.
  intros Hcmd Hf Hp.
  rewrite (edit_file_run _ _ _ executable (map render templates)) by done.
  rewrite map_sub_placeholder_fill by done.
  cbn [fst snd editor_started trace]. rewrite started_app.
  by repeat split.
Qed.

Lemma edit_file_starts_editor_witness :
  started (trace (edit_file vim "/etc/hosts" idle).2) =
  [("gvim", ["-f"; "/etc/hosts"; "-c"; "normal 1G0l"])].
Proof.
  refine (proj1 (proj2
    (edit_file_starts_editor vim "/etc/hosts" idle "gvim"
       [[Lit "-f"]; [Tok ph_file]; [Lit "-c"];
        [Lit "normal "; Tok ph_line; Lit "G"; Tok ph_column0; Lit "l"]]
       _ _ _))); reflexivity.
Defined.

(** X18.  From the text to the command line: for a caret within the text
    and argument templates and a temporary file name without stray opening
    braces, [edit] starts one process whose arguments are the templates
    with the name of the temporary file and the line and column of the
    caret (the count of newlines before it plus 1, and its distance from the
    last newline before it) filled in. *)
Theorem edit_starts_editor_at_caret config tmp text caret_position st data
    executable templates :
  tempfile_written config tmp text st data ->
  editor_command config = executable :: map render templates ->
  no_open_brace (tmp_dir tmp) = true ->
  no_open_brace (tmp_random tmp) = true ->
  forallb (forallb plain) templates = true ->
  0 <= caret_position <= len text ->
  (edit config tmp text caret_position st).1 = Ok tt /\
  started (trace (edit config tmp text caret_position st).2) =
    started (trace st) ++
    [(executable,
      map (fill (tmp_name tmp)
             (Z.of_nat (newlines_before text (Z.to_nat caret_position)) + 1)
             (caret_position -
              last_newline_before text (Z.to_nat caret_position)))
        templates)].
Proof.
  intros Htmp Hcmd Hd Hr Hp Hcp.
  rewrite (edit_starts _ _ _ _ _ data executable (map render templates))
    by done.
  rewrite map_sub_placeholder_fill
    by (try done; by apply no_open_brace_tmp_name).
  rewrite caret_line_inside, caret_column_inside by done.
  pose proof (file_created_quiet tmp text st data) as (_ & _ & _ & Hst).
  cbn [fst snd editor_started trace]. rewrite started_app, Hst.
  split; [done|]. cbn. done.
Qed.

Lemma edit_starts_editor_at_caret_witness :
  started (trace (edit vim tmp_ok ("aaa" +:+ newline +:+ "bbbbb") 6 idle).2) =
  [("gvim", ["-f"; "/tmp/qutebrowser-editor-k3x9_a2b"; "-c"; "normal 2G2l"])].
Proof.
  refine (proj2
    (edit_starts_editor_at_caret vim tmp_ok ("aaa" +:+ newline +:+ "bbbbb") 6
       idle ("aaa" +:+ newline +:+ "bbbbb") "gvim"
       [[Lit "-f"]; [Tok ph_file]; [Lit "-c"];
        [Lit "normal "; Tok ph_line; Lit "G"; Tok ph_column0; Lit "l"]]
       _ _ _ _ _ _)); try reflexivity.
  - vm_compute. repeat split; reflexivity.
  - vm_compute. split; discriminate.
Defined.

(** X19.  When neither the file name nor the text between the placeholders
    of a template has an opening brace, the result of [_sub_placeholder]
    has none either: no placeholder is left in it, and substituting again,
    with any line and column, changes nothing. *)
Theorem sub_placeholder_leaves_no_placeholder filename line column pieces :
  no_open_brace filename = true ->
  forallb plain pieces = true ->
  no_open_brace (sub_placeholder filename (render pieces) line column) = true /\
  (forall p,
     contains (sub_placeholder filename (render pieces) line column) (token p)
       = false) /\
  (forall line' column',
     sub_placeholder filename
       (sub_placeholder filename (render pieces) line column) line' column' =
     sub_placeholder filename (render pieces) line column).
Proof.
  intros Hf Hp.
  assert (H : no_open_brace
                (sub_placeholder filename (render pieces) line column) = true).
  { rewrite sub_placeholder_fill by done. by apply no_open_brace_fill. }
  split; [done|]. split.
  - intros p. by apply contains_no_open_brace.
  - intros line' column'. apply sub_placeholder_absent.
    intros p. by apply contains_no_open_brace.
Qed.

Lemma sub_placeholder_leaves_no_placeholder_witness :
  sub_placeholder "/tmp/x" (sub_placeholder "/tmp/x" "+{line}:{column0}" 4 9) 5 1 =
  sub_placeholder "/tmp/x" "+{line}:{column0}" 4 9.
Proof.
  refine (proj2 (proj2
    (sub_placeholder_leaves_no_placeholder "/tmp/x" 4 9
       [Lit "+"; Tok ph_line; Lit ":"; Tok ph_column0] _ _)) 5 1);
    reflexivity.
Defined.

(** X20.  When the text fits the buffers of the file object, an error of
    writing it shows only as the [with] block closes the file, and [edit]
    has set [_filename] already: the error is reported and no process is
    started, the file stays on disk with the bytes that reached it, and
    every later [edit] on the session raises [ValueError]. *)
Theorem edit_close_error_blocks_retry config tmp text caret_position st data e
    tmp' text' caret_position' :
  _filename (self st) = None ->
  tmp_create tmp = None ->
  fs st !! tmp_name tmp = None ->
  String.eqb text "" = false ->
  encode (editor_encoding config) (translate_write (linesep config) text) =
    Some data ->
  write_through tmp data = false ->
  tmp_close tmp = Some e ->
  (edit config tmp text caret_position st).1 = Ok tt /\
  _filename (self (edit config tmp text caret_position st).2) =
    Some (tmp_name tmp) /\
  fs (edit config tmp text caret_position st).2 !! tmp_name tmp =
    Some (take (tmp_written tmp) data) /\
  started (trace (edit config tmp text caret_position st).2) =
    started (trace st) /\
  In (message_error ("Failed to create initial file: " +:+ os_error_str e))
     (trace (edit config tmp text caret_position st).2) /\
  edit config tmp' text' caret_position'
    (edit config tmp text caret_position st).2 =
  (Raise (ValueError "Already editing a file!"),
   (edit config tmp text caret_position st).2).
Proof.
  intros Hf Hc Hfresh Ht He Hw Hclose.
  rewrite (edit_aborts config tmp text caret_position st e at_close data)
    by (by repeat split).
  unfold edit_aborted. cbn [fst snd self fs trace _filename].
  split; [done|]. split; [done|]. split; [apply lookup_insert_eq|].
  split; [|split].
  - rewrite started_app. cbn. by rewrite app_nil_r.
  - apply in_or_app. right. right. right. by left.
  - by apply (edit_guard _ _ _ _ _ (tmp_name tmp)).
Qed.

Lemma edit_close_error_blocks_retry_witness :
  fs (edit vim tmp_close_fails "abc" 0 idle).2 !! tmp_name tmp_close_fails =
    Some "" /\
  edit vim tmp_ok "abc" 0 (edit vim tmp_close_fails "abc" 0 idle).2 =
  (Raise (ValueError "Already editing a file!"),
   (edit vim tmp_close_fails "abc" 0 idle).2).
Proof.
  pose proof (edit_close_error_blocks_retry vim tmp_close_fails "abc" 0 idle
                "abc" (OtherOSError "[Errno 28] No space left on device")
                tmp_ok "abc" 0) as H.
  destruct H as (_ & _ & H3 & _ & _ & H6); try reflexivity.
  split; [exact H3 | exact H6].
Defined.

(** X21.  Whatever the caret position is, also negative or beyond the end,
    the line is at least 1 and at most the number of newlines of the text
    plus 1. *)
Theorem caret_line_within_text_lines text caret_position :
  1 <= caret_line text caret_position <=
  Z.of_nat (newlines_before text (String.length text)) + 1.
Proof.
  assert (H : exists n, (n <= String.length text)%nat /\
                        slice_to text caret_position = take n text).
  { unfold slice_to, len.
    destruct (Z.ltb_spec caret_position 0); eexists; (split; [|done]); lia. }
  destruct H as (n & Hn & Hs).
  unfold caret_line. rewrite Hs, count_newline, length_take by done.
  rewrite newlines_before_take by done.
  pose proof (newlines_before_mono text n (String.length text) Hn). lia.
Qed.

(** X22.  The class touches no file but its own: a callback leaves every
    file other than the one named by [_filename] as it is, and [edit],
    however it ends, leaves every file other than the temporary file as it
    is. *)
Theorem other_files_untouched config st path :
  (forall sig,
     _filename (self st) <> Some path ->
     fs (deliver config sig st).2 !! path = fs st !! path) /\
  (forall tmp text caret_position,
     path <> tmp_name tmp ->
     fs (edit config tmp text caret_position st).2 !! path = fs st !! path).
Proof.
  split.
  - intros sig Hne. destruct sig as [exitcode [] | err]; cbn [deliver].
    + rewrite on_proc_closed_normal.
      pose proof (cleanup_frame
                    (record (read_back config exitcode st).2 st) path Hne) as H.
      by destruct (_cleanup (record (read_back config exitcode st).2 st))
        as [[[]|e] st'].
    + by rewrite on_proc_closed_crash.
    + by apply cleanup_frame.
  - intros tmp text caret_position Hne.
    unfold edit, bind at 1, get_self.
    destruct (_filename (self st)); [done|]. unfold bind at 1.
    match goal with |- context [try_except_OSError ?b ?h st] =>
      assert (H : fs (try_except_OSError b h st).2 !! path = fs st !! path);
      [|destruct (try_except_OSError b h st) as [[[]|e'] st'];
        cbn [snd] in *; try done;
        unfold bind, set_remove_file, bind, get_self, set_self; cbn [fst snd];
        by rewrite start_editor_fs]
    end.
    unfold try_except_OSError, NamedTemporaryFile, fobj_write, fobj_close,
      set_filename, effect, record, get_fs, set_fs, get_self, set_self,
      raise, ret, bind.
    cbn [fst snd fs self trace].
    repeat case_match; simplify_eq; cbn [snd fs];
      rewrite ?lookup_insert_ne by done; done.
Qed.

Lemma other_files_untouched_witness :
  fs (deliver vim (finished 0 NormalExit)
        (terminates (<["/etc/hosts" := "x"]> (<[tmp_name tmp_ok := "abc"]> ∅))
           NormalExit (edit vim tmp_ok "abc" 0 idle).2)).2 !! "/etc/hosts" =
  Some "x".
Proof.
  rewrite (proj1 (other_files_untouched vim
             (terminates (<["/etc/hosts" := "x"]> (<[tmp_name tmp_ok := "abc"]> ∅))
                NormalExit (edit vim tmp_ok "abc" 0 idle).2) "/etc/hosts")
             (finished 0 NormalExit)).
  - vm_compute. reflexivity.
  - vm_compute. discriminate.
Defined.

End Extra.
